(** * Corgi: the on-chain org-chart engine

    A shallow embedding of the Solidity contracts [MultiSignable],
    [OrgChart], [BitVectorOrgChart] and [DynamicBitVectorOrgChart], and the
    properties of the engine stated over it.

    Conventions of the embedding:
    - a [uintN] or [bytes32] value is a [Z] in the range [0, 2^N); checked
      arithmetic of Solidity 0.8 is written out and ends in [Panic];
    - a [mapping] is a finite map with the default value zero;
    - a function that can revert returns a [result]; a failed [require]
      carries the reason string of the source;
    - [keccak256] is the Keccak-256 sponge itself, [ecrecover] is a parameter
      of the functions that recover signers. *)

From stdpp Require Import gmap strings list sorting.
From Stdlib Require Import ZArith Lia.

Local Open Scope Z_scope.

(** ** Keccak-256 (the hash primitive of the EVM) *)

Module Keccak.

Definition lane_mask : Z := 2 ^ 64 - 1.

Definition rotl64 (x n : Z) : Z :=
  Z.land (Z.lor (Z.shiftl x n) (Z.shiftr x (64 - n))) lane_mask.

(** The state is 25 lanes of 64 bits, lane [(x, y)] at position [x + 5y]. *)
Definition lane (A : list Z) (x y : Z) : Z :=
  nth (Z.to_nat (x mod 5 + 5 * (y mod 5))) A 0.

Definition coords : list (Z * Z) :=
  y ← [0; 1; 2; 3; 4]; x ← [0; 1; 2; 3; 4]; [(x, y)].

Definition rho_offsets : list Z :=
  [ 0;  1; 62; 28; 27;
   36; 44;  6; 55; 20;
    3; 10; 43; 25; 39;
   41; 45; 15; 21;  8;
   18;  2; 61; 56; 14].

Definition round_constants : list Z :=
  [0x0000000000000001; 0x0000000000008082; 0x800000000000808A;
   0x8000000080008000; 0x000000000000808B; 0x0000000080000001;
   0x8000000080008081; 0x8000000000008009; 0x000000000000008A;
   0x0000000000000088; 0x0000000080008009; 0x000000008000000A;
   0x000000008000808B; 0x800000000000008B; 0x8000000000008089;
   0x8000000000008003; 0x8000000000008002; 0x8000000000000080;
   0x000000000000800A; 0x800000008000000A; 0x8000000080008081;
   0x8000000000008080; 0x0000000080000001; 0x8000000080008008].

Definition theta (A : list Z) : list Z :=
  let C x := fold_right Z.lxor 0 (map (lane A x) [0; 1; 2; 3; 4]) in
  let Cs := map C [0; 1; 2; 3; 4] in
  let c x := nth (Z.to_nat (x mod 5)) Cs 0 in
  map (fun '(x, y) =>
         Z.lxor (lane A x y) (Z.lxor (c (x - 1)) (rotl64 (c (x + 1)) 1)))
      coords.

Definition rho_pi (A : list Z) : list Z :=
  map (fun '(X, Y) =>
         let x := (X + 3 * Y) mod 5 in
         rotl64 (lane A x X) (lane rho_offsets x X))
      coords.

Definition chi (B : list Z) : list Z :=
  map (fun '(x, y) =>
         Z.lxor (lane B x y)
                (Z.land (Z.lxor (lane B (x + 1) y) lane_mask)
                        (lane B (x + 2) y)))
      coords.

Definition iota (rc : Z) (A : list Z) : list Z :=
  match A with
  | a :: A' => Z.lxor a rc :: A'
  | [] => []
  end.

Definition round (A : list Z) (rc : Z) : list Z :=
  iota rc (chi (rho_pi (theta A))).

Definition keccak_f (A : list Z) : list Z :=
  fold_left round round_constants A.

(** Rate of Keccak-256 in bytes. *)
Definition rate : nat := 136.

Fixpoint le_word (bs : list Z) : Z :=
  match bs with
  | [] => 0
  | b :: bs' => b + 256 * le_word bs'
  end.

Fixpoint le_bytes (n : nat) (w : Z) : list Z :=
  match n with
  | O => []
  | S n' => w mod 256 :: le_bytes n' (w / 256)
  end.

Fixpoint chunks (fuel : nat) (k : nat) (bs : list Z) : list (list Z) :=
  match fuel with
  | O => []
  | S f =>
      match bs with
      | [] => []
      | _ => take k bs :: chunks f k (drop k bs)
      end
  end.

(** Multi-rate padding with the original Keccak domain byte [0x01]. *)
Definition pad (msg : list Z) : list Z :=
  let q := (rate - (length msg) mod rate)%nat in
  if (q =? 1)%nat then msg ++ [0x81]
  else msg ++ [0x01] ++ repeat 0 (q - 2) ++ [0x80].

Definition absorb (A : list Z) (block : list Z) : list Z :=
  let lanes := map le_word (chunks 17 8 block) ++ repeat 0 8%nat in
  keccak_f (zip_with Z.lxor A lanes).

Definition be_word (bs : list Z) : Z :=
  fold_left (fun acc b => acc * 256 + b) bs 0.

(** The digest, read as a big-endian 256-bit number ([bytes32]). *)
Definition keccak256 (msg : list Z) : Z :=
  let p := pad msg in
  let A := fold_left absorb (chunks (S (length p)) rate p) (repeat 0 25%nat) in
  be_word (flat_map (le_bytes 8) (take 4 A)).

End Keccak.

Definition keccak256 : list Z -> Z := Keccak.keccak256.

(** ** ABI encoding *)

Fixpoint bytes_of_string (s : string) : list Z :=
  match s with
  | EmptyString => []
  | String a s' => Z.of_N (Ascii.N_of_ascii a) :: bytes_of_string s'
  end.

(** Big-endian bytes of the low [8 * n] bits of [w]. *)
Fixpoint be_bytes (n : nat) (w : Z) : list Z :=
  match n with
  | O => []
  | S n' => be_bytes n' (w / 256) ++ [w mod 256]
  end.

(** [abi.encode] of a tuple of static 32-byte fields. *)
Definition abi_encode (ws : list Z) : list Z := flat_map (be_bytes 32) ws.

Definition len {A} (l : list A) : Z := Z.of_nat (length l).

(** [abi.encode] of one [bytes32[]] or [uint256[]] argument: offset of the
    tail, the length, the elements. *)
Definition abi_encode_array (xs : list Z) : list Z :=
  abi_encode (0x20 :: len xs :: xs).

Definition of_bool (b : bool) : Z := if b then 1 else 0.

(** ** Results of contract calls *)

Inductive result (A : Type) : Type :=
| Ok (a : A)
| Revert (reason : string)
| Panic (code : Z)
| OutOfFuel.

Arguments Ok {A} a.
Arguments Revert {A} reason.
Arguments Panic {A} code.
Arguments OutOfFuel {A}.

Definition bind {A B} (c : result A) (k : A -> result B) : result B :=
  match c with
  | Ok a => k a
  | Revert r => Revert r
  | Panic c => Panic c
  | OutOfFuel => OutOfFuel
  end.

Notation "'let*' x ':=' c 'in' k" := (bind c (fun x => k))
  (at level 10, x pattern, c at level 100, k at level 200).

Definition require (cond : bool) (reason : string) : result unit :=
  if cond then Ok tt else Revert reason.

Fixpoint foldM {A B} (f : A -> B -> result A) (l : list B) (a : A) : result A :=
  match l with
  | [] => Ok a
  | b :: l' => let* a' := f a b in foldM f l' a'
  end.

(** Panic codes of Solidity 0.8. *)
Definition ARITHMETIC : Z := 0x11.
Definition OUT_OF_BOUNDS : Z := 0x32.

Definition UINT256_MAX : Z := 2 ^ 256 - 1.

Definition checked_add (w a b : Z) : result Z :=
  if a + b <? 2 ^ w then Ok (a + b) else Panic ARITHMETIC.

Definition checked_sub (a b : Z) : result Z :=
  if b <=? a then Ok (a - b) else Panic ARITHMETIC.

Definition checked_mul (w a b : Z) : result Z :=
  if a * b <? 2 ^ w then Ok (a * b) else Panic ARITHMETIC.

(** [~x], [x << n] and [x >> n] on [uint256]. *)
Definition not256 (x : Z) : Z := Z.lxor x UINT256_MAX.
Definition shl256 (x n : Z) : Z := Z.land (Z.shiftl x n) UINT256_MAX.
Definition shr256 (x n : Z) : Z := Z.shiftr x n.

(** [a[i]] on a memory array. *)
Definition index (l : list Z) (i : Z) : result Z :=
  match l !! Z.to_nat i with
  | Some x => Ok x
  | None => Panic OUT_OF_BOUNDS
  end.

(** Reading and writing a [mapping]. *)
Definition mget (m : gmap Z Z) (k : Z) : Z := default 0 (m !! k).
Definition mset (m : gmap Z Z) (k v : Z) : gmap Z Z := <[k := v]> m.
Definition mdelete (m : gmap Z Z) (k : Z) : gmap Z Z := delete k m.

(** ** Data of the contracts *)

(** [MultiSignable.Signature] *)
Record Signature : Type := {
  sig_v : Z;
  sig_r : Z;
  sig_s : Z
}.

(** [OrgChart.SignedApproval] *)
Record SignedApproval : Type := {
  sig : list Signature;
  atoms : list Z;
  assignment : list Z;
  selfSignRequired : bool;
  baseBlockHash : Z
}.

(** [DynamicOrgChart.RoleDef] *)
Record RoleDef : Type := {
  roleId : Z;
  roleFlag : Z;
  seniorFlags : Z;
  juniorFlags : Z;
  ruleHashes : list Z
}.

Inductive Event : Type :=
| RoleGranted (nominee rid : Z)
| RoleRevoked (nominee rid : Z)
| RoleAdded (rid seniors juniors : Z)
| RoleRemoved (rid : Z).

(** The block context of a transaction: [block.number] and [blockhash]. *)
Record Block : Type := {
  block_number : Z;
  blockhash : Z -> Z
}.

(** Storage of [DynamicBitVectorOrgChart] (with the storage it inherits). *)
Record State : Type := {
  DOMAIN_SEPARATOR : Z;
  roleId2Flag : gmap Z Z;
  roleFlag2Mask : gmap Z Z;
  user2Roles : gmap Z Z;
  ruleHashToRoleFlags : gmap Z Z;
  roleIdToNOAssignments : gmap Z Z;
  activeRoleFlags : Z;
  roleIdx2Flag : gmap Z Z;
  roleFlag2JuniorMask : gmap Z Z;
  numOfActiveRoles : Z;
  freeRoleFlags : Z
}.

Definition set_roleId2Flag (m : gmap Z Z) (st : State) : State :=
  {| DOMAIN_SEPARATOR := DOMAIN_SEPARATOR st; roleId2Flag := m;
     roleFlag2Mask := roleFlag2Mask st; user2Roles := user2Roles st;
     ruleHashToRoleFlags := ruleHashToRoleFlags st;
     roleIdToNOAssignments := roleIdToNOAssignments st;
     activeRoleFlags := activeRoleFlags st; roleIdx2Flag := roleIdx2Flag st;
     roleFlag2JuniorMask := roleFlag2JuniorMask st;
     numOfActiveRoles := numOfActiveRoles st; freeRoleFlags := freeRoleFlags st |}.

Definition set_roleFlag2Mask (m : gmap Z Z) (st : State) : State :=
  {| DOMAIN_SEPARATOR := DOMAIN_SEPARATOR st; roleId2Flag := roleId2Flag st;
     roleFlag2Mask := m; user2Roles := user2Roles st;
     ruleHashToRoleFlags := ruleHashToRoleFlags st;
     roleIdToNOAssignments := roleIdToNOAssignments st;
     activeRoleFlags := activeRoleFlags st; roleIdx2Flag := roleIdx2Flag st;
     roleFlag2JuniorMask := roleFlag2JuniorMask st;
     numOfActiveRoles := numOfActiveRoles st; freeRoleFlags := freeRoleFlags st |}.

Definition set_user2Roles (m : gmap Z Z) (st : State) : State :=
  {| DOMAIN_SEPARATOR := DOMAIN_SEPARATOR st; roleId2Flag := roleId2Flag st;
     roleFlag2Mask := roleFlag2Mask st; user2Roles := m;
     ruleHashToRoleFlags := ruleHashToRoleFlags st;
     roleIdToNOAssignments := roleIdToNOAssignments st;
     activeRoleFlags := activeRoleFlags st; roleIdx2Flag := roleIdx2Flag st;
     roleFlag2JuniorMask := roleFlag2JuniorMask st;
     numOfActiveRoles := numOfActiveRoles st; freeRoleFlags := freeRoleFlags st |}.

Definition set_ruleHashToRoleFlags (m : gmap Z Z) (st : State) : State :=
  {| DOMAIN_SEPARATOR := DOMAIN_SEPARATOR st; roleId2Flag := roleId2Flag st;
     roleFlag2Mask := roleFlag2Mask st; user2Roles := user2Roles st;
     ruleHashToRoleFlags := m;
     roleIdToNOAssignments := roleIdToNOAssignments st;
     activeRoleFlags := activeRoleFlags st; roleIdx2Flag := roleIdx2Flag st;
     roleFlag2JuniorMask := roleFlag2JuniorMask st;
     numOfActiveRoles := numOfActiveRoles st; freeRoleFlags := freeRoleFlags st |}.

Definition set_roleIdToNOAssignments (m : gmap Z Z) (st : State) : State :=
  {| DOMAIN_SEPARATOR := DOMAIN_SEPARATOR st; roleId2Flag := roleId2Flag st;
     roleFlag2Mask := roleFlag2Mask st; user2Roles := user2Roles st;
     ruleHashToRoleFlags := ruleHashToRoleFlags st;
     roleIdToNOAssignments := m;
     activeRoleFlags := activeRoleFlags st; roleIdx2Flag := roleIdx2Flag st;
     roleFlag2JuniorMask := roleFlag2JuniorMask st;
     numOfActiveRoles := numOfActiveRoles st; freeRoleFlags := freeRoleFlags st |}.

Definition set_activeRoleFlags (x : Z) (st : State) : State :=
  {| DOMAIN_SEPARATOR := DOMAIN_SEPARATOR st; roleId2Flag := roleId2Flag st;
     roleFlag2Mask := roleFlag2Mask st; user2Roles := user2Roles st;
     ruleHashToRoleFlags := ruleHashToRoleFlags st;
     roleIdToNOAssignments := roleIdToNOAssignments st;
     activeRoleFlags := x; roleIdx2Flag := roleIdx2Flag st;
     roleFlag2JuniorMask := roleFlag2JuniorMask st;
     numOfActiveRoles := numOfActiveRoles st; freeRoleFlags := freeRoleFlags st |}.

Definition set_roleIdx2Flag (m : gmap Z Z) (st : State) : State :=
  {| DOMAIN_SEPARATOR := DOMAIN_SEPARATOR st; roleId2Flag := roleId2Flag st;
     roleFlag2Mask := roleFlag2Mask st; user2Roles := user2Roles st;
     ruleHashToRoleFlags := ruleHashToRoleFlags st;
     roleIdToNOAssignments := roleIdToNOAssignments st;
     activeRoleFlags := activeRoleFlags st; roleIdx2Flag := m;
     roleFlag2JuniorMask := roleFlag2JuniorMask st;
     numOfActiveRoles := numOfActiveRoles st; freeRoleFlags := freeRoleFlags st |}.

Definition set_roleFlag2JuniorMask (m : gmap Z Z) (st : State) : State :=
  {| DOMAIN_SEPARATOR := DOMAIN_SEPARATOR st; roleId2Flag := roleId2Flag st;
     roleFlag2Mask := roleFlag2Mask st; user2Roles := user2Roles st;
     ruleHashToRoleFlags := ruleHashToRoleFlags st;
     roleIdToNOAssignments := roleIdToNOAssignments st;
     activeRoleFlags := activeRoleFlags st; roleIdx2Flag := roleIdx2Flag st;
     roleFlag2JuniorMask := m;
     numOfActiveRoles := numOfActiveRoles st; freeRoleFlags := freeRoleFlags st |}.

Definition set_numOfActiveRoles (x : Z) (st : State) : State :=
  {| DOMAIN_SEPARATOR := DOMAIN_SEPARATOR st; roleId2Flag := roleId2Flag st;
     roleFlag2Mask := roleFlag2Mask st; user2Roles := user2Roles st;
     ruleHashToRoleFlags := ruleHashToRoleFlags st;
     roleIdToNOAssignments := roleIdToNOAssignments st;
     activeRoleFlags := activeRoleFlags st; roleIdx2Flag := roleIdx2Flag st;
     roleFlag2JuniorMask := roleFlag2JuniorMask st;
     numOfActiveRoles := x; freeRoleFlags := freeRoleFlags st |}.

Definition set_freeRoleFlags (x : Z) (st : State) : State :=
  {| DOMAIN_SEPARATOR := DOMAIN_SEPARATOR st; roleId2Flag := roleId2Flag st;
     roleFlag2Mask := roleFlag2Mask st; user2Roles := user2Roles st;
     ruleHashToRoleFlags := ruleHashToRoleFlags st;
     roleIdToNOAssignments := roleIdToNOAssignments st;
     activeRoleFlags := activeRoleFlags st; roleIdx2Flag := roleIdx2Flag st;
     roleFlag2JuniorMask := roleFlag2JuniorMask st;
     numOfActiveRoles := numOfActiveRoles st; freeRoleFlags := x |}.

(** ** Constants *)

Definition LOOK_BACK_LENGTH : Z := 3.
Definition MAX_NUM_SIGNERS : Z := 100.
Definition MAX_NUM_RULES : Z := 10.

Definition USER_MGT_REQ_HASH : Z :=
  0x4188b8d190b775104aa586eb6c5d6b815d12bb4e103b72d0d4937b62c85c778e.
Definition RULE_HASH : Z :=
  0x64bddff132fc1c7cb4776ef381143d78d0f2f6873b824fa04d6c83665ba25c38.
Definition ATOM_FLAG_STRICT : Z := shl256 1 248.
Definition ATOM_FLAG_REL_QTY : Z := shl256 2 248.
Definition GRANT_HASH : Z :=
  0xa72fd109f1975359ff67bd5ebe67fb335d4d285dc5067f5b17f0aaa21f3d5084.
Definition REVOKE_HASH : Z :=
  0x9e10ea5887e56efeb96d4464ee7be8e8f408f1a889563a625d293d9d970cc73f.
Definition ADD_ROLE_REQ_HASH : Z :=
  0xb297726e9ba5e58dd2bdbcd29ed10ec45e1fba4092200e6f6574c595546e8a35.
Definition REMOVE_ROLE_REQ_HASH : Z :=
  0xf3c1118b8decb364780535ddd1aec07c063af923a883cd0d003f1afbd5a4d20f.
Definition ADMIN_HASH : Z :=
  0xf23ec0bb4210edd5cba85afd05127efcd2fc6a781bfed49188da1081670b22d8.

(** ** Reason strings of the [require] statements *)

Definition ERR_STALE_BASE_BLOCK : string :=
  "Signature out-dated or not valid on this fork. Reeisue a new signature".
Definition ERR_TOO_MANY_SIGNERS : string := "To many signers! Cannot process".
Definition ERR_LENGTH_MISMATCH : string :=
  "Invalid arguments: Assignment length must match number of signatures".
Definition ERR_UNORDERED_SIGNERS : string :=
  "Signers need to be sorted in ascending order".
Definition ERR_UNKNOWN_ROLE : string := "Unknown role".
Definition ERR_INVALID_RULE : string := "Invalid rule".
Definition ERR_MISSING_SELF_SIGN : string := "Missing signature of nominee".
Definition ERR_UNEXPECTED_SELF_SIGN : string := "Nominee is not expected to sign".
Definition ERR_INVALID_ASSIGNMENT : string := "Invalid assignment".
Definition ERR_PERMISSION_DENIED : string :=
  "Invalid assignment: At least one signer does not have the specified role".
Definition ERR_NOT_ENOUGH_SIGNERS : string :=
  "Not enough signers have signed the request".
Definition ERR_SELF_SIGN_NOT_ALLOWED : string :=
  "Self-sign not allowed for admin-rules".
Definition ERR_CYCLE_DETECTED : string := "Cycle detected".
Definition ERR_ROLE_DOES_NOT_EXIST : string := "Role does not exist".
Definition ERR_MALFORMED_ROLE_FLAG : string :=
  "Only one bit is allowed to be set to 1".
Definition ERR_ROLE_FLAG_TAKEN : string := "Role flag already taken".
Definition ERR_MALFORMED_ROLE_ID : string :=
  "Role id is only allowed to take up the first 30 bytes".
Definition ERR_ROLE_ID_TAKEN : string := "Role id already taken".
Definition ERR_SENIORS_MISSING : string := "One or more senior roles do not exist".
Definition ERR_JUNIORS_MISSING : string := "One or more junior roles do not exist".
Definition ERR_TOO_MANY_RULES : string := "Maximum number of rules exceeded".
Definition ERR_INVALID_ADMIN_RULE : string := "Invalid admin-rule".

(** ** OrgChart: sanity checks on an approval *)

(** [for (uint8 i = 1; i <= LOOK_BACK_LENGTH; i++)] over the values of [i]. *)
Fixpoint _isValidBaseBlock_loop (blk : Block) (h : Z) (back : list Z) : result bool :=
  match back with
  | [] => Ok false
  | i :: back' =>
      let* n := checked_sub (block_number blk) i in
      if blockhash blk n =? h then Ok true
      else _isValidBaseBlock_loop blk h back'
  end.

Definition _isValidBaseBlock (blk : Block) (h : Z) : result bool :=
  _isValidBaseBlock_loop blk h (seqZ 1 LOOK_BACK_LENGTH).

(** The modifier [onlyValidApprovals]; the third [require] compares
    [approval.sig.length] with itself, as the source does. *)
Definition onlyValidApprovals (blk : Block) (approval : SignedApproval) : result unit :=
  let* fresh := _isValidBaseBlock blk (baseBlockHash approval) in
  let* _ := require fresh ERR_STALE_BASE_BLOCK in
  let* _ := require (len (sig approval) <=? MAX_NUM_SIGNERS) ERR_TOO_MANY_SIGNERS in
  require (len (sig approval) =? len (sig approval)) ERR_LENGTH_MISMATCH.

(** ** BitVectorOrgChart: inheritance oracle *)

(** The loop of [_getPure]: [while (shift > 0)]. *)
Fixpoint _getPure_loop (fuel : nat) (mask piv shift : Z) : result Z :=
  if shift >? 0 then
    match fuel with
    | O => OutOfFuel
    | S fuel' =>
        if negb (Z.land piv mask =? 0) then Ok piv
        else
          let shift' := shr256 shift 1 in
          let piv' := if piv >? mask then shr256 piv shift' else shl256 piv shift' in
          _getPure_loop fuel' mask piv' shift'
    end
  else Ok 0.

(** Number of iterations granted to the loop of [_getPure]; the shift
    factor starts at 128 and is halved in each iteration. *)
Definition GET_PURE_FUEL : nat := 8.

Definition _getPure (mask : Z) : result Z :=
  if mask =? 0 then Ok 0
  else
    let* m1 := checked_sub mask 1 in
    if Z.land mask m1 =? 0 then Ok mask
    else _getPure_loop GET_PURE_FUEL mask (shl256 1 128) 128.

(** The loop of [_buildStructureMask]: [while (roleFlags != 0)]. *)
Fixpoint _buildStructureMask_loop (fuel : nat) (flag2Mask : gmap Z Z)
    (roleFlags mask : Z) : result Z :=
  if negb (roleFlags =? 0) then
    match fuel with
    | O => OutOfFuel
    | S fuel' =>
        let* role := _getPure roleFlags in
        _buildStructureMask_loop fuel' flag2Mask
          (Z.lxor roleFlags role) (Z.lor mask (mget flag2Mask role))
    end
  else Ok mask.

(** Number of iterations granted to the loop of [_buildStructureMask]: one
    per bit of a word. *)
Definition BUILD_MASK_FUEL : nat := 256.

Definition _buildStructureMask (st : State) (roleFlags : Z) : result Z :=
  _buildStructureMask_loop BUILD_MASK_FUEL (roleFlag2Mask st) roleFlags 0.

Definition hasRole (st : State) (user rid : Z) : result bool :=
  let requiredRoleFlag := mget (roleId2Flag st) rid in
  let userRoleFlags := Z.land (mget (user2Roles st) user) (activeRoleFlags st) in
  let* _ := require (negb (requiredRoleFlag =? 0)) ERR_UNKNOWN_ROLE in
  if Z.land userRoleFlags requiredRoleFlag =? requiredRoleFlag then Ok true
  else if userRoleFlags =? 0 then Ok false
  else
    let* userRoleMask := _buildStructureMask st userRoleFlags in
    Ok (Z.land userRoleMask requiredRoleFlag =? requiredRoleFlag).

Definition strictlyHasRole (st : State) (user rid : Z) : result bool :=
  let requiredRoleFlag := mget (roleId2Flag st) rid in
  let userRoleFlags := Z.land (mget (user2Roles st) user) (activeRoleFlags st) in
  let* _ := require (negb (requiredRoleFlag =? 0)) ERR_UNKNOWN_ROLE in
  Ok (Z.land userRoleFlags requiredRoleFlag =? requiredRoleFlag).

(** ** BitVectorOrgChart: hashing of rules and requests *)

Definition _computeRuleHash (approval : SignedApproval) (action : Z) : Z :=
  let atomHash := keccak256 (abi_encode_array (atoms approval)) in
  keccak256
    (abi_encode [RULE_HASH; action; of_bool (selfSignRequired approval); atomHash]).

Definition _wrapAsEthSignedMessage (st : State) (txHash : Z) : Z :=
  let requestHash :=
    keccak256 ([0x19; 0x01] ++ be_bytes 32 (DOMAIN_SEPARATOR st) ++ be_bytes 32 txHash) in
  keccak256
    ([0x19] ++ bytes_of_string "Ethereum Signed Message:" ++ [0x0a]
       ++ bytes_of_string "32" ++ be_bytes 32 requestHash).

Definition _computeUserManagementReqHash (st : State)
    (nominee action rid bbh : Z) : Z :=
  _wrapAsEthSignedMessage st
    (keccak256 (abi_encode [USER_MGT_REQ_HASH; nominee; action; rid; bbh])).

(** ** BitVectorOrgChart: rule fulfillment *)

Definition _getAbsNumberOfRequiredSigners (base perc : Z) : result Z :=
  let* req := checked_mul 256 base perc in
  let req := (req / 100) + (if req mod 100 >? 0 then 1 else 0) in
  let req :=
    if req >? MAX_NUM_SIGNERS then MAX_NUM_SIGNERS
    else if req <? 1 then 1
    else req in
  Ok (req mod 2 ^ 8).

(** First loop of [_requireRuleFulfillment], over [assignment]; [i] is the
    [uint8] loop counter and [cnt] the counters per atom. *)
Fixpoint _requireRuleFulfillment_assign (st : State) (nominee : Z)
    (signers atms : list Z) (asg : list Z) (i : Z) (cnt : list Z)
    : result (list Z) :=
  match asg with
  | [] => Ok cnt
  | a :: asg' =>
      let* signer := index signers i in
      let* cnt' :=
        if signer =? nominee then Ok cnt
        else
          let roleIdMask := not256 (shl256 0xffff 240) in
          let* _ := require (len atms >? a) ERR_INVALID_ASSIGNMENT in
          let* atom := index atms a in
          let* holds :=
            if Z.land atom ATOM_FLAG_STRICT =? ATOM_FLAG_STRICT
            then strictlyHasRole st signer (Z.land atom roleIdMask)
            else hasRole st signer (Z.land atom roleIdMask) in
          let* _ := require holds ERR_PERMISSION_DENIED in
          let* c := index cnt a in
          let* c' := checked_add 8 c 1 in
          Ok (<[Z.to_nat a := c']> cnt) in
      let* i' := checked_add 8 i 1 in
      _requireRuleFulfillment_assign st nominee signers atms asg' i' cnt'
  end.

(** Second loop of [_requireRuleFulfillment], over [atoms]. *)
Fixpoint _requireRuleFulfillment_quota (st : State) (atms : list Z) (i : Z)
    (cnt : list Z) : result unit :=
  match atms with
  | [] => Ok tt
  | atom :: atms' =>
      let qty := Z.land (shr256 atom 240) 0xff in
      let role := shr256 (shl256 atom 16) 16 in
      let* qty :=
        if Z.land atom ATOM_FLAG_REL_QTY =? ATOM_FLAG_REL_QTY
        then _getAbsNumberOfRequiredSigners (mget (roleIdToNOAssignments st) role) qty
        else Ok qty in
      let* c := index cnt i in
      let* _ := require (c >=? qty) ERR_NOT_ENOUGH_SIGNERS in
      let* i' := checked_add 8 i 1 in
      _requireRuleFulfillment_quota st atms' i' cnt
  end.

Definition _requireRuleFulfillment (st : State) (nominee : Z)
    (signers atms asg : list Z) : result unit :=
  let cnt := repeat 0 (length atms) in
  let* cnt := _requireRuleFulfillment_assign st nominee signers atms asg 0 cnt in
  _requireRuleFulfillment_quota st atms 0 cnt.

(** ** Operations that recover signers *)

Section Contract.

(** The precompile [ecrecover(hash, v, r, s)]. *)
Variable ecrecover : Z -> Z -> Z -> Z -> Z.

(** [MultiSignable.getSigners]: the loop over the signatures, with the
    last recovered address and the self-sign flag. *)
Fixpoint getSigners_loop (sigs : list Signature) (nominee targetHash : Z)
    (lastAdd : Z) (selfSigned : bool) : result (bool * list Z) :=
  match sigs with
  | [] => Ok (selfSigned, [])
  | s :: sigs' =>
      let recovered := ecrecover targetHash (sig_v s) (sig_r s) (sig_s s) in
      let* _ := require (recovered >? lastAdd) ERR_UNORDERED_SIGNERS in
      let selfSigned := if recovered =? nominee then true else selfSigned in
      let* (selfSigned, signers) :=
        getSigners_loop sigs' nominee targetHash recovered selfSigned in
      Ok (selfSigned, recovered :: signers)
  end.

Definition getSigners (sigs : list Signature) (nominee targetHash : Z)
    : result (bool * list Z) :=
  getSigners_loop sigs nominee targetHash 0 false.

Definition _requireValidRequest (st : State) (approval : SignedApproval)
    (action nominee rid : Z) : result unit :=
  let roleFlag := mget (roleId2Flag st) rid in
  let* _ := require (negb (roleFlag =? 0)) ERR_UNKNOWN_ROLE in
  let ruleHash := _computeRuleHash approval action in
  let validRule :=
    Z.land (mget (ruleHashToRoleFlags st) ruleHash) roleFlag =? roleFlag in
  let* _ := require validRule ERR_INVALID_RULE in
  let* (selfSigned, signers) :=
    getSigners (sig approval) nominee
      (_computeUserManagementReqHash st nominee action rid (baseBlockHash approval)) in
  let* _ :=
    require (eqb selfSigned (selfSignRequired approval))
      (if selfSignRequired approval then ERR_MISSING_SELF_SIGN
       else ERR_UNEXPECTED_SELF_SIGN) in
  _requireRuleFulfillment st nominee signers (atoms approval) (assignment approval).

Definition grantRole (blk : Block) (st : State) (approval : SignedApproval)
    (nominee rid : Z) : result (State * Event) :=
  let* _ := onlyValidApprovals blk approval in
  let* _ := _requireValidRequest st approval GRANT_HASH nominee rid in
  let roleFlag := mget (roleId2Flag st) rid in
  let* st :=
    if Z.land (mget (user2Roles st) nominee) roleFlag =? 0 then
      let st :=
        set_user2Roles
          (mset (user2Roles st) nominee
             (Z.lor (mget (user2Roles st) nominee) roleFlag)) st in
      let* n := checked_add 256 (mget (roleIdToNOAssignments st) rid) 1 in
      Ok (set_roleIdToNOAssignments (mset (roleIdToNOAssignments st) rid n) st)
    else Ok st in
  Ok (st, RoleGranted nominee rid).

Definition revokeRole (blk : Block) (st : State) (approval : SignedApproval)
    (nominee rid : Z) : result (State * Event) :=
  let* _ := onlyValidApprovals blk approval in
  let* _ := _requireValidRequest st approval REVOKE_HASH nominee rid in
  let roleFlag := mget (roleId2Flag st) rid in
  let* st :=
    if Z.land (mget (user2Roles st) nominee) roleFlag =? roleFlag then
      let st :=
        set_user2Roles
          (mset (user2Roles st) nominee
             (Z.land (mget (user2Roles st) nominee) (not256 roleFlag))) st in
      let* n := checked_sub (mget (roleIdToNOAssignments st) rid) 1 in
      Ok (set_roleIdToNOAssignments (mset (roleIdToNOAssignments st) rid n) st)
    else Ok st in
  Ok (st, RoleRevoked nominee rid).

(** *** DynamicBitVectorOrgChart *)

Definition _requireValidRoleDef (st : State) (roleDef : RoleDef) : result unit :=
  let* f1 := checked_sub (roleFlag roleDef) 1 in
  let* _ := require (Z.land (roleFlag roleDef) f1 =? 0) ERR_MALFORMED_ROLE_FLAG in
  let* _ :=
    require (negb (Z.land (roleFlag roleDef) (freeRoleFlags st) =? 0))
      ERR_ROLE_FLAG_TAKEN in
  let* _ :=
    require (shr256 (shl256 (roleId roleDef) 16) 16 =? roleId roleDef)
      ERR_MALFORMED_ROLE_ID in
  let* _ :=
    require (mget (roleId2Flag st) (roleId roleDef) =? 0) ERR_ROLE_ID_TAKEN in
  let* _ :=
    require (Z.land (seniorFlags roleDef) (not256 (freeRoleFlags st))
             =? seniorFlags roleDef) ERR_SENIORS_MISSING in
  let* _ :=
    require (Z.land (juniorFlags roleDef) (not256 (freeRoleFlags st))
             =? juniorFlags roleDef) ERR_JUNIORS_MISSING in
  require (len (ruleHashes roleDef) <? MAX_NUM_RULES) ERR_TOO_MANY_RULES.

Definition _computeAddRoleReqHash (st : State) (roleDef : RoleDef) (bbh : Z) : Z :=
  _wrapAsEthSignedMessage st
    (keccak256
       (abi_encode
          [ADD_ROLE_REQ_HASH; roleId roleDef; roleFlag roleDef;
           seniorFlags roleDef; juniorFlags roleDef;
           keccak256 (abi_encode_array (ruleHashes roleDef)); bbh])).

Definition _computeRemoveRoleReqHash (st : State) (rid bbh : Z) : Z :=
  _wrapAsEthSignedMessage st
    (keccak256 (abi_encode [REMOVE_ROLE_REQ_HASH; rid; bbh])).

Definition _requireValidAdminRequest (st : State) (approval : SignedApproval)
    (targetHash : Z) : result unit :=
  let ruleHash := _computeRuleHash approval ADMIN_HASH in
  let* _ :=
    require (mget (ruleHashToRoleFlags st) ruleHash =? UINT256_MAX)
      ERR_INVALID_ADMIN_RULE in
  let* (_, signers) := getSigners (sig approval) 0 targetHash in
  _requireRuleFulfillment st 0 signers (atoms approval) (assignment approval).

Definition _requireValidAddRoleRequest (st : State) (approval : SignedApproval)
    (roleDef : RoleDef) : result unit :=
  _requireValidAdminRequest st approval
    (_computeAddRoleReqHash st roleDef (baseBlockHash approval)).

Definition _requireValidRemoveRequest (st : State) (approval : SignedApproval)
    (rid : Z) : result unit :=
  _requireValidAdminRequest st approval
    (_computeRemoveRoleReqHash st rid (baseBlockHash approval)).

(** [for (uint8 i = numOfActiveRoles; i > from; i--)], then the counter. *)
Definition _shiftRightRoleIdx (st : State) (from : Z) : result State :=
  let n := numOfActiveRoles st in
  let st :=
    fold_left
      (fun st i =>
         set_roleIdx2Flag
           (mset (roleIdx2Flag st) i (mget (roleIdx2Flag st) (i - 1))) st)
      (reverse (seqZ (from + 1) (n - from))) st in
  let* n' := checked_add 8 n 1 in
  Ok (set_numOfActiveRoles n' st).

(** [for (uint8 i = to; i < numOfActiveRoles - 1; i++)], the [delete] and
    the counter. *)
Definition _shiftLeftRoleIdx (st : State) (to : Z) : result State :=
  let n := numOfActiveRoles st in
  let* last := checked_sub n 1 in
  let st :=
    fold_left
      (fun st i =>
         set_roleIdx2Flag
           (mset (roleIdx2Flag st) i (mget (roleIdx2Flag st) (i + 1))) st)
      (seqZ to (last - to)) st in
  let st := set_roleIdx2Flag (mdelete (roleIdx2Flag st) last) st in
  Ok (set_numOfActiveRoles last st).

(** Body of the loop of [addRole] over the role array; the state and the
    index of the first parent are threaded through. *)
Definition addRole_step (roleDef : RoleDef) (newRoleMask : Z)
    (acc : State * Z) (i : Z) : State * Z :=
  let '(st, firstParent) := acc in
  let rFlag := mget (roleIdx2Flag st) i in
  let roleMask := mget (roleFlag2Mask st) rFlag in
  let '(st, firstParent) :=
    if negb (Z.land (seniorFlags roleDef) rFlag =? 0) then
      (set_roleFlag2JuniorMask
         (mset (roleFlag2JuniorMask st) rFlag
            (Z.lor (mget (roleFlag2JuniorMask st) rFlag) (roleFlag roleDef))) st,
       if i <=? firstParent then i else firstParent)
    else (st, firstParent) in
  let st :=
    if negb (Z.land roleMask (seniorFlags roleDef) =? 0) then
      set_roleFlag2Mask
        (mset (roleFlag2Mask st) rFlag
           (Z.lor (mget (roleFlag2Mask st) rFlag) newRoleMask)) st
    else st in
  (st, firstParent).

Definition addRole (st : State) (approval : SignedApproval) (roleDef : RoleDef)
    : result (State * Event) :=
  let* _ := require (negb (selfSignRequired approval)) ERR_SELF_SIGN_NOT_ALLOWED in
  let* _ := _requireValidRoleDef st roleDef in
  let* _ := _requireValidAddRoleRequest st approval roleDef in
  let* built := _buildStructureMask st (juniorFlags roleDef) in
  let newRoleMask := Z.lor built (roleFlag roleDef) in
  let* _ :=
    require (Z.land newRoleMask (seniorFlags roleDef) =? 0) ERR_CYCLE_DETECTED in
  let '(st, firstParent) :=
    fold_left (addRole_step roleDef newRoleMask)
      (seqZ 0 (numOfActiveRoles st)) (st, numOfActiveRoles st) in
  let* st := _shiftRightRoleIdx st firstParent in
  let st := set_roleIdx2Flag (mset (roleIdx2Flag st) firstParent (roleFlag roleDef)) st in
  let st := set_roleId2Flag (mset (roleId2Flag st) (roleId roleDef) (roleFlag roleDef)) st in
  let st :=
    set_roleFlag2JuniorMask
      (mset (roleFlag2JuniorMask st) (roleFlag roleDef) (juniorFlags roleDef)) st in
  let st := set_roleFlag2Mask (mset (roleFlag2Mask st) (roleFlag roleDef) newRoleMask) st in
  let st :=
    fold_left
      (fun st h =>
         set_ruleHashToRoleFlags
           (mset (ruleHashToRoleFlags st) h
              (Z.lor (mget (ruleHashToRoleFlags st) h) (roleFlag roleDef))) st)
      (ruleHashes roleDef) st in
  let st := set_freeRoleFlags (Z.lxor (freeRoleFlags st) (roleFlag roleDef)) st in
  let st := set_activeRoleFlags (Z.lor (activeRoleFlags st) (roleFlag roleDef)) st in
  Ok (st, RoleAdded (roleId roleDef) (seniorFlags roleDef) (juniorFlags roleDef)).

(** Body of the loop of [removeRole] over the role array; the state and
    [roleIdx] are threaded through. *)
Definition removeRole_step (delRoleFlag : Z) (acc : State * Z) (i : Z)
    : result (State * Z) :=
  let '(st, roleIdx) := acc in
  let rFlag := mget (roleIdx2Flag st) i in
  if rFlag =? delRoleFlag then Ok (st, i)
  else
    let roleMask := mget (roleFlag2Mask st) rFlag in
    let juniorMask := mget (roleFlag2JuniorMask st) rFlag in
    let '(st, juniorMask) :=
      if negb (Z.land juniorMask delRoleFlag =? 0) then
        let juniorMask := Z.lxor juniorMask delRoleFlag in
        (set_roleFlag2JuniorMask (mset (roleFlag2JuniorMask st) rFlag juniorMask) st,
         juniorMask)
      else (st, juniorMask) in
    if negb (Z.land roleMask delRoleFlag =? 0) then
      let* built := _buildStructureMask st juniorMask in
      Ok (set_roleFlag2Mask (mset (roleFlag2Mask st) rFlag (Z.lor built rFlag)) st,
          roleIdx)
    else Ok (st, roleIdx).

Definition removeRole (st : State) (approval : SignedApproval) (rid : Z)
    : result (State * Event) :=
  let* _ := require (negb (selfSignRequired approval)) ERR_SELF_SIGN_NOT_ALLOWED in
  let delRoleFlag := mget (roleId2Flag st) rid in
  let* _ := require (negb (delRoleFlag =? 0)) ERR_ROLE_DOES_NOT_EXIST in
  let* _ := _requireValidRemoveRequest st approval rid in
  let* (st, roleIdx) :=
    foldM (removeRole_step delRoleFlag) (seqZ 0 (numOfActiveRoles st)) (st, 0) in
  let* st := _shiftLeftRoleIdx st roleIdx in
  let st := set_roleId2Flag (mdelete (roleId2Flag st) rid) st in
  let st := set_roleFlag2Mask (mdelete (roleFlag2Mask st) delRoleFlag) st in
  let st := set_roleFlag2JuniorMask (mdelete (roleFlag2JuniorMask st) delRoleFlag) st in
  let st := set_activeRoleFlags (Z.lxor (activeRoleFlags st) delRoleFlag) st in
  Ok (st, RoleRemoved rid).

End Contract.

(** ** Transactions *)

Inductive Call : Type :=
| CallGrantRole (blk : Block) (approval : SignedApproval) (nominee rid : Z)
| CallRevokeRole (blk : Block) (approval : SignedApproval) (nominee rid : Z)
| CallAddRole (approval : SignedApproval) (roleDef : RoleDef)
| CallRemoveRole (approval : SignedApproval) (rid : Z).

Definition call (ecrecover : Z -> Z -> Z -> Z -> Z) (c : Call) (st : State)
    : result (State * Event) :=
  match c with
  | CallGrantRole blk approval nominee rid => grantRole ecrecover blk st approval nominee rid
  | CallRevokeRole blk approval nominee rid => revokeRole ecrecover blk st approval nominee rid
  | CallAddRole approval roleDef => addRole ecrecover st approval roleDef
  | CallRemoveRole approval rid => removeRole ecrecover st approval rid
  end.

(** A transaction that does not succeed leaves the storage as it was. *)
Definition transact (ecrecover : Z -> Z -> Z -> Z -> Z) (st : State) (c : Call) : State :=
  match call ecrecover c st with
  | Ok (st', _) => st'
  | _ => st
  end.

Definition run (ecrecover : Z -> Z -> Z -> Z -> Z) (cs : list Call) (st : State) : State :=
  fold_left (transact ecrecover) cs st.

(** ** Notions of the specification *)

(** Positions of the bits set in a 256-bit word. *)
Definition setBits (flags : Z) : list Z :=
  filter (fun i => Z.testbit flags i = true) (seqZ 0 256).

(** OR of [flag2Mask[2^i]] over the bits [i] set in [flags]. *)
Definition maskUnion (flag2Mask : gmap Z Z) (flags : Z) : Z :=
  foldr (fun i acc => Z.lor (mget flag2Mask (2 ^ i)) acc) 0 (setBits flags).

(** [J] is a junior (direct or transitive) of [S]: another role whose flag is
    in the structure mask of [S]. *)
Definition isJuniorOf (st : State) (J S : Z) : bool :=
  negb (J =? S) && (Z.land (mget (roleFlag2Mask st) S) J =? J).

(** The role array is reverse-topological: a junior is listed at a strictly
    lower index than its senior. *)
Definition reverseTopological (st : State) : bool :=
  forallb
    (fun i =>
       forallb
         (fun j =>
            implb (isJuniorOf st (mget (roleIdx2Flag st) j) (mget (roleIdx2Flag st) i))
                  (j <? i))
         (seqZ 0 (numOfActiveRoles st)))
    (seqZ 0 (numOfActiveRoles st)).

(** Mask consistency: the structure mask of every listed role is its flag
    joined with the structure masks of its direct juniors. *)
Definition maskConsistent (st : State) : bool :=
  forallb
    (fun i =>
       let f := mget (roleIdx2Flag st) i in
       mget (roleFlag2Mask st) f
       =? Z.lor f (maskUnion (roleFlag2Mask st) (mget (roleFlag2JuniorMask st) f)))
    (seqZ 0 (numOfActiveRoles st)).

(** No active flag and no registered flag is in the free pool. *)
Definition flagsDisjoint (st : State) : Prop :=
  Z.land (activeRoleFlags st) (freeRoleFlags st) = 0 /\
  map_Forall (fun _ f => Z.land f (freeRoleFlags st) = 0) (roleId2Flag st).

(** Ceiling of [x / d]. *)
Definition ceilDiv (x d : Z) : Z := (x + d - 1) / d.

(** The approval with another rule body. *)
Definition withAtoms (atms : list Z) (approval : SignedApproval) : SignedApproval :=
  {| sig := sig approval; atoms := atms; assignment := assignment approval;
     selfSignRequired := selfSignRequired approval;
     baseBlockHash := baseBlockHash approval |}.

(** The approval with another assignment. *)
Definition withAssignment (asg : list Z) (approval : SignedApproval) : SignedApproval :=
  {| sig := sig approval; atoms := atoms approval; assignment := asg;
     selfSignRequired := selfSignRequired approval;
     baseBlockHash := baseBlockHash approval |}.

(** ** Off-chain side: role ids, atoms and canonical rule hashes *)

(** [computeRoleId]: the hash of the role's name without its two low bytes. *)
Definition computeRoleId (role : string) : Z :=
  shr256 (keccak256 (bytes_of_string role)) 16.

(** [encodeRuleAtom]: role id, quantity in byte 30, modifier flags in byte 31. *)
Definition encodeRuleAtom (rid qty : Z) (isStrict isRelative : bool) : Z :=
  let flags := Z.lor (if isStrict then 1 else 0) (if isRelative then 2 else 0) in
  Z.lor rid (Z.lor (Z.shiftl qty 240) (Z.shiftl flags 248)).

(** [atoms.sort((a, b) => (BigInt(a) < BigInt(b) ? -1 : 1))] *)
Definition sortAtoms (atms : list Z) : list Z := merge_sort Z.le atms.

(** [computeRuleHash] of the tooling: the atoms are sorted, then hashed with
    the type hash, the hash of the action name and the self-sign flag. *)
Definition computeRuleHash (action : string) (selfSign : bool) (atms : list Z) : Z :=
  keccak256
    (abi_encode
       [RULE_HASH; keccak256 (bytes_of_string action); of_bool selfSign;
        keccak256 (abi_encode_array (sortAtoms atms))]).

(** [st'] has the flag pools and the role registry of [st]. *)
Definition sameFlags (st st' : State) : Prop :=
  freeRoleFlags st' = freeRoleFlags st /\
  activeRoleFlags st' = activeRoleFlags st /\
  roleId2Flag st' = roleId2Flag st.

(** The call returns, and its result satisfies [post]. *)
Definition succeeds {A} (r : result A) (post : A -> Prop) : Prop :=
  match r with
  | Ok a => post a
  | _ => False
  end.

(** The flags listed in the role array, in order. *)
Definition roleIndex (st : State) : list Z :=
  map (mget (roleIdx2Flag st)) (seqZ 0 (numOfActiveRoles st)).

(** ** A deployed chart to run the engine on

    The storage a generated constructor leaves for the dynamic chart with
    the single role [root], with the rule [root] as admin, grant and revoke
    rule of [root], and one user holding [root]. Signatures are formed for a
    recovery function under which the [r] component names the signer. *)

Module Demo.

Definition ecrecover (hash v r s : Z) : Z := Z.land r (2 ^ 160 - 1).

Definition signedBy (signer : Z) : Signature :=
  {| sig_v := 27; sig_r := signer; sig_s := 1 |}.

Definition alice : Z := 0xa11ce.
Definition bob : Z := 0xb0b00.
Definition carol : Z := 0xca401.

Definition EIP712_DOMAIN_TYPE_HASH : Z :=
  0xd87cd6ef79d4e2b95e15ce8abf732db51ec771f1ca2edccf22a46c729ac56472.
Definition NAME_HASH : Z :=
  0xf79310e2384d4cc5a5f57b642dd5c236aa2344053942c31e8c59d3abd597c467.
Definition VERSION_HASH : Z :=
  0xc89efdaa54c0f20c7adf612882df0950f5a951637e0307cdcb4c672f298b8bc6.
Definition SALT : Z :=
  0x9cf69971c503e34e205aa5d3003914d50dd071efbc900bf30fbda4634d062b1e.

(** The constants of the chart, evaluated once. *)
Definition ROOT : Z := Eval vm_compute in computeRoleId "root".

Definition rootRule : list Z := [encodeRuleAtom ROOT 1 false false].

Definition ROOT_ADMIN_RULE : Z := Eval vm_compute in
  computeRuleHash "admin" false rootRule.
Definition ROOT_GRANT_RULE : Z := Eval vm_compute in
  computeRuleHash "grant" false rootRule.
Definition ROOT_REVOKE_RULE : Z := Eval vm_compute in
  computeRuleHash "revoke" false rootRule.
Definition SEPARATOR : Z := Eval vm_compute in
  keccak256
    (abi_encode [EIP712_DOMAIN_TYPE_HASH; NAME_HASH; VERSION_HASH; 31337;
                 0xc0461; SALT]).

Definition deployed : State :=
  {| DOMAIN_SEPARATOR := SEPARATOR;
     roleId2Flag := {[ ROOT := 1 ]};
     roleFlag2Mask := {[ 1 := 1 ]};
     user2Roles := {[ alice := 1 ]};
     ruleHashToRoleFlags :=
       {[ ROOT_ADMIN_RULE := UINT256_MAX; ROOT_GRANT_RULE := 1;
          ROOT_REVOKE_RULE := 1 ]};
     roleIdToNOAssignments := {[ ROOT := 1 ]};
     activeRoleFlags := 1;
     roleIdx2Flag := {[ 0 := 1 ]};
     roleFlag2JuniorMask := {[ 1 := 0 ]};
     numOfActiveRoles := 1;
     freeRoleFlags := Z.lxor UINT256_MAX 1 |}.

(** An approval under the rule [root] with the given signers and
    assignment. *)
Definition approvalOf (signers : list Z) (asg : list Z) (bbh : Z) : SignedApproval :=
  {| sig := map signedBy signers; atoms := rootRule; assignment := asg;
     selfSignRequired := false; baseBlockHash := bbh |}.

(** A chain at height 1000 on which block [n] has the hash [7000 + n]. *)
Definition chain : Block :=
  {| block_number := 1000; blockhash := fun n => 7000 + n |}.

Definition freshHash : Z := 7999.
Definition staleHash : Z := 7900.

Definition byAlice : SignedApproval := approvalOf [alice] [0] freshHash.

Definition role (name : string) (flag seniors juniors : Z) : RoleDef :=
  {| roleId := computeRoleId name; roleFlag := flag; seniorFlags := seniors;
     juniorFlags := juniors; ruleHashes := [] |}.

(** Roles added to the chart: [K], [P] and [J] (a senior of [K]) without
    seniors, then [R] between the senior [P] and the junior [J]; their ids
    are evaluated once. *)
Definition K : RoleDef := Eval vm_compute in role "K" 2 0 0.
Definition P : RoleDef := Eval vm_compute in role "P" 4 0 0.
Definition J : RoleDef := Eval vm_compute in role "J" 8 0 2.
Definition R : RoleDef := Eval vm_compute in role "R" 16 4 8.

(** A role [Y] under the senior with flag [s] and over the junior flags [j]. *)
Definition Y_ID : Z := Eval vm_compute in computeRoleId "Y".
Definition Y (s j : Z) : RoleDef :=
  {| roleId := Y_ID; roleFlag := 4; seniorFlags := s; juniorFlags := j;
     ruleHashes := [] |}.

End Demo.

(** * Properties *)

(** ** Results *)

Lemma bind_Ok {A B} (c : result A) (k : A -> result B) (b : B) :
  bind c k = Ok b -> exists a, c = Ok a /\ k a = Ok b.
Proof. destruct c; simpl; intros H; try discriminate. eauto. Qed.

Lemma require_Ok (cond : bool) (reason : string) (u : unit) :
  require cond reason = Ok u -> cond = true.
Proof. destruct cond; simpl; [done | discriminate]. Qed.

(** ** Bits *)

Lemma testbit_pow2 (k n : Z) : 0 <= k -> Z.testbit (2 ^ k) n = bool_decide (k = n).
Proof.
  intros Hk. rewrite Z.pow2_bits_eqb by done.
  case_bool_decide; [by apply Z.eqb_eq | by apply Z.eqb_neq].
Qed.

Lemma land_pow2_eq0 (k m : Z) :
  0 <= k -> (Z.land (2 ^ k) m =? 0) = negb (Z.testbit m k).
Proof.
  intros Hk. destruct (Z.testbit m k) eqn:Hb; simpl.
  - apply Z.eqb_neq. intros H0.
    assert (Hk' : Z.testbit (Z.land (2 ^ k) m) k = true).
    { rewrite Z.land_spec, Hb, testbit_pow2 by done. by rewrite bool_decide_eq_true_2. }
    rewrite H0, Z.bits_0 in Hk'. discriminate.
  - apply Z.eqb_eq, Z.bits_inj'. intros n Hn.
    rewrite Z.land_spec, Z.bits_0, testbit_pow2 by done.
    case_bool_decide; subst; [by rewrite Hb | done].
Qed.

Lemma pow2_of_land_pred (f : Z) :
  1 <= f -> Z.land f (f - 1) = 0 -> f = 2 ^ Z.log2 f.
Proof.
  intros Hf H0.
  destruct (Z.log2_spec f) as [Hlo Hhi]; [lia|].
  destruct (decide (f = 2 ^ Z.log2 f)) as [|Hne]; [done|exfalso].
  assert (Hf1 : f <> 1) by (intros ->; by apply Hne).
  assert (Hl : Z.log2 (f - 1) = Z.log2 f).
  { apply Z.log2_unique; [apply Z.log2_nonneg | lia]. }
  assert (Hb : Z.testbit (Z.land f (f - 1)) (Z.log2 f) = true).
  { rewrite Z.land_spec, Z.bit_log2 by lia.
    rewrite <- Hl, Z.bit_log2 by lia. done. }
  rewrite H0, Z.bits_0 in Hb. discriminate.
Qed.

Lemma shl256_pow2 (p n : Z) :
  0 <= p -> 0 <= n -> p + n < 256 -> shl256 (2 ^ p) n = 2 ^ (p + n).
Proof.
  intros Hp Hn Hlt. unfold shl256, UINT256_MAX.
  rewrite Z.shiftl_mul_pow2, <- Z.pow_add_r by done.
  change (2 ^ 256 - 1) with (Z.ones 256).
  rewrite Z.land_ones by done.
  apply Z.mod_small. split; [lia|]. apply Z.pow_lt_mono_r; lia.
Qed.

Lemma shr256_pow2 (p n : Z) :
  0 <= n <= p -> shr256 (2 ^ p) n = 2 ^ (p - n).
Proof.
  intros Hn. unfold shr256. rewrite Z.shiftr_div_pow2 by lia.
  by rewrite Z.pow_sub_r by lia.
Qed.

(** ** [_getPure] *)

Lemma getPure_loop_spec (s : nat) : forall (p m : Z),
  0 < m ->
  2 ^ Z.of_nat s <= p <= 256 - 2 ^ Z.of_nat s ->
  p - 2 ^ Z.of_nat s < Z.log2 m < p + 2 ^ Z.of_nat s ->
  exists k, _getPure_loop (S s) m (2 ^ p) (2 ^ Z.of_nat s) = Ok (2 ^ k)
            /\ Z.testbit m k = true /\ 0 <= k < 256.
Proof.
  induction s as [|s IH]; intros p m Hm Hp Hh.
  - assert (Z.log2 m = p) as <- by (simpl in Hh; lia).
    exists (Z.log2 m). simpl in Hp. cbn [_getPure_loop].
    change (2 ^ Z.of_nat 0 >? 0) with true. cbv iota.
    rewrite land_pow2_eq0, Z.bit_log2 by lia. simpl. split_and!; (done || lia).
  - assert (Hs : 0 < 2 ^ Z.of_nat s) by (apply Z.pow_pos_nonneg; lia).
    assert (Hs2 : 2 ^ Z.of_nat (S s) = 2 * 2 ^ Z.of_nat s).
    { rewrite Nat2Z.inj_succ, Z.pow_succ_r by lia. done. }
    rewrite Hs2 in Hp, Hh.
    remember (S s) as fuel eqn:Hfuel. cbn [_getPure_loop].
    replace (2 ^ Z.of_nat fuel >? 0) with true by (symmetry; apply Z.gtb_lt; lia).
    cbv iota. rewrite land_pow2_eq0 by lia.
    destruct (Z.testbit m p) eqn:Hb; simpl.
    { exists p. split_and!; (done || lia). }
    assert (Hsh : shr256 (2 ^ Z.of_nat fuel) 1 = 2 ^ Z.of_nat s).
    { rewrite Hs2. unfold shr256. rewrite Z.shiftr_div_pow2 by lia.
      change (2 ^ 1) with 2. rewrite Z.mul_comm, Z.div_mul; lia. }
    rewrite Hsh.
    assert (Hne : Z.log2 m <> p).
    { intros <-. rewrite Z.bit_log2 in Hb by lia. discriminate. }
    destruct (2 ^ p >? m) eqn:Hcmp.
    + apply Z.gtb_lt in Hcmp. apply Z.log2_lt_pow2 in Hcmp; [|lia].
      rewrite shr256_pow2 by lia. subst fuel. apply IH; lia.
    + assert (~ m < 2 ^ p) by (intros ?%Z.gtb_lt; congruence).
      assert (~ Z.log2 m < p).
      { intros Hlt. apply Z.log2_lt_pow2 in Hlt; lia. }
      rewrite shl256_pow2 by lia. subst fuel. apply IH; lia.
Qed.

(** The loop of [_getPure] halves [shift] in every iteration, so the
    iterations granted to it are never used up, whatever the mask. *)
Lemma getPure_loop_terminates (fuel : nat) : forall (m piv shift : Z),
  shift < 2 ^ Z.of_nat fuel -> _getPure_loop fuel m piv shift <> OutOfFuel.
Proof.
  induction fuel as [|fuel IH]; intros m piv shift Hs.
  - cbn [_getPure_loop]. change (2 ^ Z.of_nat 0) with 1 in Hs.
    destruct (Z.gtb_spec shift 0); [lia | discriminate].
  - cbn [_getPure_loop]. destruct (shift >? 0) eqn:Hpos; [|discriminate].
    destruct (negb (Z.land piv m =? 0)); [discriminate|].
    apply IH. unfold shr256. rewrite Z.shiftr_div_pow2 by lia.
    change (2 ^ 1) with 2. rewrite Nat2Z.inj_succ, Z.pow_succ_r in Hs by lia.
    apply Z.div_lt_upper_bound; lia.
Qed.

Lemma getPure_terminates (m : Z) : _getPure m <> OutOfFuel.
Proof.
  unfold _getPure. destruct (m =? 0); [discriminate|].
  unfold checked_sub. destruct (1 <=? m); [|discriminate]. cbn [bind].
  destruct (Z.land m (m - 1) =? 0); [discriminate|].
  apply getPure_loop_terminates. reflexivity.
Qed.

Lemma getPure_spec (m : Z) :
  0 < m < 2 ^ 256 ->
  exists k, _getPure m = Ok (2 ^ k) /\ Z.testbit m k = true /\ 0 <= k < 256.
Proof.
  intros Hm. unfold _getPure.
  replace (m =? 0) with false by (symmetry; apply Z.eqb_neq; lia).
  unfold checked_sub. replace (1 <=? m) with true by (symmetry; apply Z.leb_le; lia).
  cbn [bind].
  assert (Hlog : Z.log2 m < 256) by (apply Z.log2_lt_pow2; lia).
  pose proof (Z.log2_nonneg m) as Hlog0.
  destruct (Z.land m (m - 1) =? 0) eqn:Hpure.
  - apply Z.eqb_eq in Hpure. apply pow2_of_land_pred in Hpure; [|lia].
    exists (Z.log2 m). rewrite <- Hpure. split_and!; [done | | lia | lia].
    apply Z.bit_log2; lia.
  - assert (Z.log2 m <> 0).
    { intros H0. destruct (Z.log2_spec m) as [Hlo Hhi]; [lia|].
      rewrite H0 in Hlo, Hhi. assert (m = 1) as -> by lia. discriminate. }
    change (shl256 1 128) with (2 ^ 128).
    change 128 with (2 ^ Z.of_nat 7) at 2. change GET_PURE_FUEL with (S 7).
    apply getPure_loop_spec; [lia | simpl; lia | simpl; lia].
Qed.

(** ** [_buildStructureMask] *)

Lemma testbit_clear (m k n : Z) :
  0 <= k ->
  Z.testbit m k = true ->
  Z.testbit (Z.lxor m (2 ^ k)) n = if decide (n = k) then false else Z.testbit m n.
Proof.
  intros Hk Hb. rewrite Z.lxor_spec, testbit_pow2 by done.
  case_decide as Hn; subst.
  - by rewrite Hb, bool_decide_eq_true_2.
  - rewrite bool_decide_eq_false_2 by done. by rewrite xorb_false_r.
Qed.

Lemma clear_bit_range (m k : Z) :
  0 <= m < 2 ^ 256 -> 0 <= k -> Z.testbit m k = true ->
  0 <= Z.lxor m (2 ^ k) < 2 ^ 256.
Proof.
  intros Hm Hk Hb.
  assert (H0 : 0 <= Z.lxor m (2 ^ k)).
  { apply Z.lxor_nonneg. split; intros _; [apply Z.pow_nonneg|]; lia. }
  split; [done|].
  assert (Hd : Z.land (Z.lxor m (2 ^ k)) (2 ^ k) = 0).
  { apply Z.bits_inj'. intros n Hn.
    rewrite Z.land_spec, testbit_clear, testbit_pow2, Z.bits_0 by done.
    case_decide; [done|]. rewrite bool_decide_eq_false_2 by done. apply andb_false_r. }
  apply Z.add_nocarry_lxor in Hd.
  rewrite Z.lxor_assoc, Z.lxor_nilpotent, Z.lxor_0_r in Hd.
  assert (0 < 2 ^ k) by (apply Z.pow_pos_nonneg; lia). lia.
Qed.

Lemma filter_clear_notin (m k : Z) (l : list Z) :
  0 <= k -> Z.testbit m k = true -> k ∉ l ->
  filter (fun i => Z.testbit (Z.lxor m (2 ^ k)) i = true) l
  = filter (fun i => Z.testbit m i = true) l.
Proof.
  intros Hk Hb. induction l as [|x l IH]; intros Hnin; [done|].
  apply not_elem_of_cons in Hnin as [Hx Hl].
  rewrite !filter_cons, IH by done.
  rewrite testbit_clear by done. destruct (decide (x = k)); [congruence | done].
Qed.

Lemma filter_clear_in (m k : Z) (l : list Z) :
  0 <= k -> Z.testbit m k = true -> NoDup l -> k ∈ l ->
  filter (fun i => Z.testbit m i = true) l
  ≡ₚ k :: filter (fun i => Z.testbit (Z.lxor m (2 ^ k)) i = true) l.
Proof.
  intros Hk Hb. induction l as [|x l IH]; intros Hnd Hin.
  { by apply elem_of_nil in Hin. }
  apply NoDup_cons in Hnd as [Hx Hnd].
  rewrite !filter_cons. rewrite testbit_clear by done.
  destruct (decide (x = k)) as [->|Hne].
  - rewrite Hb. rewrite decide_True by done. rewrite decide_False by done.
    by rewrite filter_clear_notin.
  - apply elem_of_cons in Hin as [?|Hin]; [congruence|].
    destruct (decide (Z.testbit m x = true)).
    + rewrite IH by done. apply Permutation_swap.
    + by apply IH.
Qed.

Lemma setBits_clear (m k : Z) :
  0 <= k < 256 -> Z.testbit m k = true ->
  setBits m ≡ₚ k :: setBits (Z.lxor m (2 ^ k)).
Proof.
  intros Hk Hb. apply filter_clear_in; [lia | done | apply NoDup_seqZ |].
  apply elem_of_seqZ. lia.
Qed.

Lemma setBits_length (m : Z) : (length (setBits m) <= 256)%nat.
Proof.
  unfold setBits. etrans; [apply length_filter|]. rewrite length_seqZ. lia.
Qed.

Lemma maskUnion_foldr_permutation (fm : gmap Z Z) (l1 l2 : list Z) :
  l1 ≡ₚ l2 ->
  foldr (fun i acc => Z.lor (mget fm (2 ^ i)) acc) 0 l1
  = foldr (fun i acc => Z.lor (mget fm (2 ^ i)) acc) 0 l2.
Proof.
  intros Hp. apply (foldr_permutation (=)); [solve_proper | | exact Hp].
  intros j1 a1 j2 a2 b _ _ _.
  rewrite !Z.lor_assoc. f_equal. apply Z.lor_comm.
Qed.

Lemma maskUnion_clear (fm : gmap Z Z) (m k : Z) :
  0 <= k < 256 -> Z.testbit m k = true ->
  maskUnion fm m = Z.lor (mget fm (2 ^ k)) (maskUnion fm (Z.lxor m (2 ^ k))).
Proof.
  intros Hk Hb. unfold maskUnion.
  by rewrite (maskUnion_foldr_permutation fm _ _ (setBits_clear m k Hk Hb)).
Qed.

Lemma buildStructureMask_loop_spec (fm : gmap Z Z) (fuel : nat) :
  forall (flags acc : Z),
  0 <= flags < 2 ^ 256 ->
  (length (setBits flags) <= fuel)%nat ->
  _buildStructureMask_loop fuel fm flags acc = Ok (Z.lor acc (maskUnion fm flags)).
Proof.
  induction fuel as [|fuel IH]; intros flags acc Hr Hlen.
  - destruct (decide (flags = 0)) as [->|Hne].
    { simpl. by rewrite Z.lor_0_r. }
    destruct (getPure_spec flags) as (k & _ & Hb & Hk); [lia|].
    rewrite (setBits_clear flags k) in Hlen by done. simpl in Hlen. lia.
  - cbn [_buildStructureMask_loop].
    destruct (decide (flags = 0)) as [->|Hne].
    { simpl. by rewrite Z.lor_0_r. }
    replace (flags =? 0) with false by (symmetry; by apply Z.eqb_neq).
    cbn [negb]. cbv iota.
    destruct (getPure_spec flags) as (k & -> & Hb & Hk); [lia|].
    cbn [bind]. rewrite IH.
    + f_equal. rewrite (maskUnion_clear fm flags k) by done.
      by rewrite Z.lor_assoc.
    + apply clear_bit_range; [done | lia | done].
    + rewrite (setBits_clear flags k) in Hlen by done. simpl in Hlen. lia.
Qed.

Lemma buildStructureMask_spec (st : State) (flags : Z) :
  0 <= flags < 2 ^ 256 ->
  _buildStructureMask st flags = Ok (maskUnion (roleFlag2Mask st) flags).
Proof.
  intros Hr. unfold _buildStructureMask.
  rewrite buildStructureMask_loop_spec; [done | done |].
  apply setBits_length.
Qed.

Lemma land_pow2_of_testbit (m k : Z) :
  0 <= k -> Z.testbit m k = true -> Z.land (2 ^ k) m = 2 ^ k.
Proof.
  intros Hk Hb. apply Z.bits_inj'. intros n Hn.
  rewrite Z.land_spec, testbit_pow2 by done.
  case_bool_decide; subst; [by rewrite Hb | done].
Qed.

(** C8: on every 256-bit word [_buildStructureMask] returns, within as many
    iterations as the word has set bits, the OR of [roleFlag2Mask[2^i]] over
    the set bits [i]; on a non-zero word [_getPure] returns a non-zero power
    of two contained in the word, and clearing it removes exactly one set
    bit. *)
Theorem buildStructureMask_getPure_correct (st : State) (flags : Z) :
  0 <= flags < 2 ^ 256 ->
  _buildStructureMask st flags = Ok (maskUnion (roleFlag2Mask st) flags) /\
  (forall fuel : nat,
     (length (setBits flags) <= fuel)%nat ->
     _buildStructureMask_loop fuel (roleFlag2Mask st) flags 0
     = Ok (maskUnion (roleFlag2Mask st) flags)) /\
  (flags <> 0 ->
   exists k,
     0 <= k < 256 /\
     _getPure flags = Ok (2 ^ k) /\
     Z.land (2 ^ k) flags = 2 ^ k /\
     2 ^ k <> 0 /\
     setBits flags ≡ₚ k :: setBits (Z.lxor flags (2 ^ k))).
Proof.
  intros Hr. split_and!.
  - by apply buildStructureMask_spec.
  - intros fuel Hfuel. by rewrite buildStructureMask_loop_spec.
  - intros Hne. destruct (getPure_spec flags) as (k & Hpure & Hb & Hk); [lia|].
    exists k. split_and!; [lia | lia | done | | |].
    + apply land_pow2_of_testbit; [lia | done].
    + assert (0 < 2 ^ k) by (apply Z.pow_pos_nonneg; lia). lia.
    + by apply setBits_clear.
Qed.

Lemma buildStructureMask_getPure_correct_witness :
  _buildStructureMask Demo.deployed 1 = Ok (maskUnion (roleFlag2Mask Demo.deployed) 1).
Proof.
  assert (Hrange : 0 <= 1 < 2 ^ 256) by lia.
  exact (proj1 (buildStructureMask_getPure_correct Demo.deployed 1 Hrange)).
Defined.

Lemma land_uint256_r (x y : Z) : 0 <= y < 2 ^ 256 -> 0 <= Z.land x y < 2 ^ 256.
Proof.
  intros Hy.
  assert (Hy' : y = Z.land y (Z.ones 256)).
  { rewrite Z.land_ones by lia. symmetry. by apply Z.mod_small. }
  rewrite Hy', Z.land_assoc, Z.land_ones by lia.
  apply Z.mod_pos_bound. lia.
Qed.

(** ** The inheritance oracle *)

(** C7: [hasRole] fails with "Unknown role" exactly when the flag of the role
    id is zero; otherwise it returns whether the flags the user holds among
    the active ones contain the required flag, or are non-zero and the union
    of their structure masks contains it. Whoever strictly has a role has it. *)
Theorem hasRole_spec (st : State) (user rid : Z) :
  0 <= activeRoleFlags st < 2 ^ 256 ->
  let required := mget (roleId2Flag st) rid in
  let held := Z.land (mget (user2Roles st) user) (activeRoleFlags st) in
  (hasRole st user rid = Revert ERR_UNKNOWN_ROLE <-> required = 0) /\
  (required <> 0 ->
   hasRole st user rid
   = Ok ((Z.land held required =? required)
         || (negb (held =? 0)
             && (Z.land (maskUnion (roleFlag2Mask st) held) required =? required)))) /\
  (strictlyHasRole st user rid = Ok true -> hasRole st user rid = Ok true).
Proof.
  intros Hact required held.
  assert (Hheld : 0 <= held < 2 ^ 256) by (by apply land_uint256_r).
  assert (Hgen : required <> 0 ->
    hasRole st user rid
    = Ok ((Z.land held required =? required)
          || (negb (held =? 0)
              && (Z.land (maskUnion (roleFlag2Mask st) held) required =? required)))).
  { intros Hreq. unfold hasRole. fold required. fold held.
    replace (required =? 0) with false by (symmetry; by apply Z.eqb_neq).
    cbn [negb require bind].
    destruct (Z.land held required =? required); [done|].
    destruct (held =? 0); [done|].
    by rewrite buildStructureMask_spec. }
  split_and!.
  - split.
    + intros Hrev. destruct (decide (required = 0)) as [|Hne]; [done|].
      rewrite (Hgen Hne) in Hrev. discriminate.
    + intros Hz. unfold hasRole. fold required. by rewrite Hz.
  - exact Hgen.
  - unfold strictlyHasRole. fold required. fold held.
    destruct (decide (required = 0)) as [Hz|Hne].
    { rewrite Hz. discriminate. }
    rewrite (Hgen Hne).
    replace (required =? 0) with false by (symmetry; by apply Z.eqb_neq).
    cbn [negb require bind]. intros [= ->]. done.
Qed.

Lemma hasRole_spec_witness :
  hasRole Demo.deployed Demo.alice Demo.ROOT = Ok true.
Proof.
  assert (Hrange : 0 <= activeRoleFlags Demo.deployed < 2 ^ 256) by (simpl; lia).
  apply (proj2 (proj2 (hasRole_spec Demo.deployed Demo.alice Demo.ROOT Hrange))).
  vm_compute. reflexivity.
Defined.

(** ** Relative quotas *)

Lemma ceilDiv_spec (x : Z) : 100 * (ceilDiv x 100 - 1) < x <= 100 * ceilDiv x 100.
Proof. unfold ceilDiv. Z.div_mod_to_equations. lia. Qed.

(** C9: for a base and a percentage in [0, 255] whose product fits a word,
    [_getAbsNumberOfRequiredSigners] returns the ceiling of
    [base * perc / 100] clamped to [1, MAX_NUM_SIGNERS]. *)
Theorem getAbsNumberOfRequiredSigners_spec (base perc : Z) :
  0 <= base -> 0 <= perc <= 255 -> base * perc < 2 ^ 256 ->
  exists c,
    100 * (c - 1) < base * perc <= 100 * c /\
    _getAbsNumberOfRequiredSigners base perc
    = Ok (Z.min MAX_NUM_SIGNERS (Z.max 1 c)).
Proof.
  intros Hb Hp Hlt. exists (ceilDiv (base * perc) 100).
  split; [apply ceilDiv_spec|].
  unfold _getAbsNumberOfRequiredSigners, checked_mul.
  replace (base * perc <? 2 ^ 256) with true by (symmetry; by apply Z.ltb_lt).
  cbn [bind]. f_equal. unfold ceilDiv, MAX_NUM_SIGNERS.
  assert (0 <= base * perc) by lia.
  generalize dependent (base * perc). intros x _ Hx.
  destruct (Z.gtb_spec (x mod 100) 0); cbv beta iota;
  repeat match goal with
         | |- context [?a >? ?b] => destruct (Z.gtb_spec a b); cbv beta iota
         | |- context [?a <? ?b] => destruct (Z.ltb_spec a b); cbv beta iota
         end;
  change (2 ^ 8) with 256; Z.div_mod_to_equations; lia.
Qed.

Lemma getAbsNumberOfRequiredSigners_spec_witness :
  exists c,
    100 * (c - 1) < 3 * 50 <= 100 * c /\
    _getAbsNumberOfRequiredSigners 3 50 = Ok (Z.min MAX_NUM_SIGNERS (Z.max 1 c)).
Proof.
  apply (getAbsNumberOfRequiredSigners_spec 3 50); lia.
Defined.

(** ** Rule fulfillment looks at the first [|assignment|] signers only *)

Lemma requireRuleFulfillment_assign_extra (st : State) (nominee : Z)
    (signers extra atms : list Z) (asg : list Z) :
  forall (i : Z) (cnt : list Z),
  0 <= i ->
  (Z.to_nat i + length asg <= length signers)%nat ->
  _requireRuleFulfillment_assign st nominee (signers ++ extra) atms asg i cnt
  = _requireRuleFulfillment_assign st nominee signers atms asg i cnt.
Proof.
  induction asg as [|a asg IH]; intros i cnt Hi Hlen; [done|].
  simpl in Hlen. cbn [_requireRuleFulfillment_assign].
  unfold index at 1 4. rewrite lookup_app_l by lia.
  destruct (signers !! Z.to_nat i) as [signer|]; [|done].
  cbn [bind].
  match goal with |- bind ?c _ = _ => destruct c as [cnt'| | |] end; try done.
  cbn [bind]. unfold checked_add.
  destruct (i + 1 <? 2 ^ 8); [|done].
  cbn [bind]. apply IH; lia.
Qed.

Lemma requireRuleFulfillment_extra (st : State) (nominee : Z)
    (signers extra atms asg : list Z) :
  (length asg <= length signers)%nat ->
  _requireRuleFulfillment st nominee (signers ++ extra) atms asg
  = _requireRuleFulfillment st nominee signers atms asg.
Proof.
  intros Hlen. unfold _requireRuleFulfillment.
  rewrite requireRuleFulfillment_assign_extra; [done | done | simpl; lia].
Qed.

(** ** Canonical order of atoms *)

Lemma sortAtoms_permutation (l1 l2 : list Z) :
  l1 ≡ₚ l2 -> sortAtoms l1 = sortAtoms l2.
Proof.
  intros Hp. unfold sortAtoms.
  apply (Sorted_unique Z.le); [apply Sorted_merge_sort, _ .. |].
  by rewrite !merge_sort_Permutation.
Qed.

Lemma sortAtoms_sorted (l : list Z) : Sorted Z.le l -> sortAtoms l = l.
Proof.
  intros Hs. unfold sortAtoms.
  apply (Sorted_unique Z.le); [apply Sorted_merge_sort, _ | done |].
  apply merge_sort_Permutation.
Qed.

(** C10: the third [require] of [onlyValidApprovals] compares the number of
    signatures with itself and never fails, so the modifier is the two checks
    before it whatever the assignment is; rule fulfillment reads the signers
    below the length of the assignment only; and [grantRole] and [revokeRole]
    accept an approval with two signatures and one assignment, whose second
    signer holds no role; a second signer who holds the role of an atom with
    quantity two counts for it only when the assignment lists him. *)
Theorem onlyValidApprovals_ignores_assignment_length :
  (forall blk ap,
     onlyValidApprovals blk ap
     = (let* fresh := _isValidBaseBlock blk (baseBlockHash ap) in
        let* _ := require fresh ERR_STALE_BASE_BLOCK in
        require (len (sig ap) <=? MAX_NUM_SIGNERS) ERR_TOO_MANY_SIGNERS)) /\
  (forall blk ap asg,
     onlyValidApprovals blk (withAssignment asg ap) = onlyValidApprovals blk ap) /\
  (forall st nominee signers extra atms asg,
     (length asg <= length signers)%nat ->
     _requireRuleFulfillment st nominee (signers ++ extra) atms asg
     = _requireRuleFulfillment st nominee signers atms asg) /\
  (let ap := Demo.approvalOf [Demo.alice; Demo.bob] [0] Demo.freshHash in
   (len (assignment ap) <? len (sig ap)) = true /\
   strictlyHasRole Demo.deployed Demo.bob Demo.ROOT = Ok false /\
   succeeds (grantRole Demo.ecrecover Demo.chain Demo.deployed ap Demo.carol Demo.ROOT)
     (fun '(st, _) =>
        strictlyHasRole st Demo.carol Demo.ROOT = Ok true /\
        _requireRuleFulfillment st Demo.bob [Demo.alice; Demo.carol]
          [encodeRuleAtom Demo.ROOT 2 false false] [0; 0] = Ok tt /\
        _requireRuleFulfillment st Demo.bob [Demo.alice; Demo.carol]
          [encodeRuleAtom Demo.ROOT 2 false false] [0]
        = Revert ERR_NOT_ENOUGH_SIGNERS /\
        succeeds (revokeRole Demo.ecrecover Demo.chain st ap Demo.carol Demo.ROOT)
          (fun '(st', _) => strictlyHasRole st' Demo.carol Demo.ROOT = Ok false))).
Proof.
  split_and!.
  - intros blk ap. unfold onlyValidApprovals.
    destruct (_isValidBaseBlock blk (baseBlockHash ap)) as [[]| | |]; try done.
    cbn [bind require]. rewrite Z.eqb_refl.
    by destruct (len (sig ap) <=? MAX_NUM_SIGNERS).
  - done.
  - intros st nominee signers extra atms asg. apply requireRuleFulfillment_extra.
  - vm_compute. split_and!; reflexivity.
Qed.

Lemma onlyValidApprovals_ignores_assignment_length_witness :
  _requireRuleFulfillment Demo.deployed Demo.carol
    ([Demo.alice] ++ [Demo.bob]) Demo.rootRule [0]
  = _requireRuleFulfillment Demo.deployed Demo.carol [Demo.alice] Demo.rootRule [0].
Proof.
  assert (Hlen : (length [0] <= length [Demo.alice])%nat) by (simpl; lia).
  exact (proj1 (proj2 (proj2 onlyValidApprovals_ignores_assignment_length))
           Demo.deployed Demo.carol [Demo.alice] [Demo.bob] Demo.rootRule [0] Hlen).
Defined.

(** ** Rule hashes *)

(** The action hashes of the contract are the hashes of the action names
    the tooling hashes. *)
Lemma action_hashes :
  keccak256 (bytes_of_string "grant") = GRANT_HASH /\
  keccak256 (bytes_of_string "revoke") = REVOKE_HASH /\
  keccak256 (bytes_of_string "admin") = ADMIN_HASH.
Proof. vm_compute. split_and!; reflexivity. Qed.

(** The type hashes of the contracts are the hashes of the type strings
    their comments give. *)
Lemma type_hashes :
  keccak256 (bytes_of_string "Rule(bytes32 type,bool selfSigned,bytes32 ruleHash)")
  = RULE_HASH /\
  keccak256
    (bytes_of_string
       "UserManagementRequest(address nominee,bytes32 action,bytes32 role,bytes32 baseBlockHash)")
  = USER_MGT_REQ_HASH /\
  keccak256
    (bytes_of_string
       "AddRoleRequest(bytes32 roleId,bytes32 roleFlag,bytes32 seniorFlags,bytes32 juniorFlags,bytes32 hashOfRuleHashes,bytes32 baseBlockHash)")
  = ADD_ROLE_REQ_HASH /\
  keccak256 (bytes_of_string "RemoveRoleRequest(bytes32 roleId,bytes32 baseBlockHash)")
  = REMOVE_ROLE_REQ_HASH.
Proof. vm_compute. split_and!; reflexivity. Qed.

(** C4, as stated, fails on the revoke rule [HeadDepA(1), WB(3)] of the
    generated chart [CorgiInc]: the registered hash is the hash of the atoms
    in ascending order; the other order of the same atoms has another hash
    under [_computeRuleHash]. *)
Lemma computeRuleHash_depends_on_order :
  let a := encodeRuleAtom (computeRoleId "HeadDepA") 1 false false in
  let b := encodeRuleAtom (computeRoleId "WB") 3 false false in
  let ap := {| sig := []; atoms := [a; b]; assignment := [];
               selfSignRequired := false; baseBlockHash := 0 |} in
  [b; a] ≡ₚ atoms ap /\
  _computeRuleHash ap REVOKE_HASH
  = 0x3473805d9645ffc417c6beb6f0b2c747ddd73bd4f46eef94316cd155ae4da7b6 /\
  _computeRuleHash (withAtoms [b; a] ap) REVOKE_HASH <> _computeRuleHash ap REVOKE_HASH.
Proof.
  vm_compute. split_and!; [apply Permutation_swap | reflexivity | discriminate].
Qed.

(** C4 (amended): [_computeRuleHash] hashes the atoms in the order the
    approval lists them. The hash is invariant under permutation once the
    atoms are sorted ascending, as the tooling does before hashing: two
    permutations sorted this way have the same hash, it is the hash of the
    approval as it stands when its atoms are already ascending, and it is
    the canonical hash [computeRuleHash] of the tooling. *)
Theorem computeRuleHash_sorted_permutation (ap : SignedApproval) (action : Z)
    (atms' : list Z) :
  atoms ap ≡ₚ atms' ->
  _computeRuleHash (withAtoms (sortAtoms atms') ap) action
  = _computeRuleHash (withAtoms (sortAtoms (atoms ap)) ap) action /\
  (Sorted Z.le (atoms ap) ->
   _computeRuleHash (withAtoms (sortAtoms atms') ap) action
   = _computeRuleHash ap action) /\
  computeRuleHash "grant" (selfSignRequired ap) atms'
  = _computeRuleHash (withAtoms (sortAtoms (atoms ap)) ap) GRANT_HASH /\
  computeRuleHash "revoke" (selfSignRequired ap) atms'
  = _computeRuleHash (withAtoms (sortAtoms (atoms ap)) ap) REVOKE_HASH /\
  computeRuleHash "admin" (selfSignRequired ap) atms'
  = _computeRuleHash (withAtoms (sortAtoms (atoms ap)) ap) ADMIN_HASH.
Proof.
  intros Hp. destruct action_hashes as (Hg & Hr & Ha).
  unfold computeRuleHash, _computeRuleHash, withAtoms.
  cbn [atoms selfSignRequired].
  rewrite <- (sortAtoms_permutation _ _ Hp), Hg, Hr, Ha.
  split_and!; [reflexivity | | reflexivity ..].
  intros Hs. by rewrite sortAtoms_sorted.
Qed.

Lemma computeRuleHash_sorted_permutation_witness :
  _computeRuleHash (withAtoms (sortAtoms [2; 1]) (Demo.approvalOf [] [] 0)) ADMIN_HASH
  = _computeRuleHash
      (withAtoms (sortAtoms [1; 2]) (withAtoms [1; 2] (Demo.approvalOf [] [] 0)))
      ADMIN_HASH.
Proof.
  assert (Hp : atoms (withAtoms [1; 2] (Demo.approvalOf [] [] 0)) ≡ₚ [2; 1])
    by apply Permutation_swap.
  exact (proj1 (computeRuleHash_sorted_permutation
                  (withAtoms [1; 2] (Demo.approvalOf [] [] 0)) ADMIN_HASH [2; 1] Hp)).
Defined.

(** ** The flag pools under the operations *)

Lemma sameFlags_refl (st : State) : sameFlags st st.
Proof. by unfold sameFlags. Qed.

Lemma sameFlags_trans (st1 st2 st3 : State) :
  sameFlags st1 st2 -> sameFlags st2 st3 -> sameFlags st1 st3.
Proof. unfold sameFlags. intros (-> & -> & ->) (-> & -> & ->). done. Qed.

Ltac inv_bind H :=
  let x := fresh "x" in
  let Hx := fresh "Hx" in
  apply bind_Ok in H as (x & Hx & H).

Lemma fold_left_sameFlags {B} (f : State -> B -> State) (l : list B) :
  (forall st b, sameFlags st (f st b)) ->
  forall st, sameFlags st (fold_left f l st).
Proof.
  intros Hf. induction l as [|b l IH]; intros st; simpl.
  - apply sameFlags_refl.
  - eapply sameFlags_trans; [apply Hf | apply IH].
Qed.

Lemma addRole_step_sameFlags (rd : RoleDef) (nm : Z) (acc : State * Z) (i : Z) :
  sameFlags acc.1 (addRole_step rd nm acc i).1.
Proof.
  destruct acc as [st fp]. unfold addRole_step.
  repeat match goal with |- context [if ?c then _ else _] => destruct c end;
    by unfold sameFlags.
Qed.

Lemma addRole_loop_sameFlags (rd : RoleDef) (nm : Z) (l : list Z) :
  forall acc, sameFlags acc.1 (fold_left (addRole_step rd nm) l acc).1.
Proof.
  induction l as [|i l IH]; intros acc; simpl.
  - apply sameFlags_refl.
  - eapply sameFlags_trans; [apply addRole_step_sameFlags | apply IH].
Qed.

Lemma shiftRightRoleIdx_sameFlags (st st' : State) (from : Z) :
  _shiftRightRoleIdx st from = Ok st' -> sameFlags st st'.
Proof.
  unfold _shiftRightRoleIdx. intros H. inv_bind H. injection H as <-.
  match goal with
  | |- sameFlags _ (set_numOfActiveRoles _ ?s) =>
      apply (sameFlags_trans _ s); [|by unfold sameFlags]
  end.
  apply fold_left_sameFlags. intros s b. by unfold sameFlags.
Qed.

Lemma shiftLeftRoleIdx_sameFlags (st st' : State) (to : Z) :
  _shiftLeftRoleIdx st to = Ok st' -> sameFlags st st'.
Proof.
  unfold _shiftLeftRoleIdx. intros H. inv_bind H. injection H as <-.
  match goal with
  | |- sameFlags _ (set_numOfActiveRoles _ ?s) =>
      apply (sameFlags_trans _ s); [|by unfold sameFlags]
  end.
  match goal with
  | |- sameFlags _ (set_roleIdx2Flag _ ?s) =>
      apply (sameFlags_trans _ s); [|by unfold sameFlags]
  end.
  apply fold_left_sameFlags. intros s b. by unfold sameFlags.
Qed.

Lemma removeRole_step_sameFlags (del : Z) (acc acc' : State * Z) (i : Z) :
  removeRole_step del acc i = Ok acc' -> sameFlags acc.1 acc'.1.
Proof.
  destruct acc as [st ridx]. unfold removeRole_step.
  repeat match goal with
         | |- context [if ?c then _ else _] => destruct c
         end; intros H; try inv_bind H; injection H as <-; by unfold sameFlags.
Qed.

Lemma removeRole_loop_sameFlags (del : Z) (l : list Z) :
  forall acc acc',
  foldM (removeRole_step del) l acc = Ok acc' -> sameFlags acc.1 acc'.1.
Proof.
  induction l as [|i l IH]; intros acc acc' H; simpl in H.
  - injection H as <-. apply sameFlags_refl.
  - inv_bind H. eapply sameFlags_trans; [by eapply removeRole_step_sameFlags | by apply IH].
Qed.

Lemma ruleHashes_loop_sameFlags (flag : Z) (hs : list Z) (st : State) :
  sameFlags st
    (fold_left
       (fun st h =>
          set_ruleHashToRoleFlags
            (mset (ruleHashToRoleFlags st) h
               (Z.lor (mget (ruleHashToRoleFlags st) h) flag)) st) hs st).
Proof. apply fold_left_sameFlags. intros s b. by unfold sameFlags. Qed.

Section Operations.

Variable ecrecover : Z -> Z -> Z -> Z -> Z.

Lemma addRole_Ok (st st' : State) (ap : SignedApproval) (rd : RoleDef) (ev : Event) :
  addRole ecrecover st ap rd = Ok (st', ev) ->
  selfSignRequired ap = false /\
  _requireValidRoleDef st rd = Ok tt /\
  freeRoleFlags st' = Z.lxor (freeRoleFlags st) (roleFlag rd) /\
  activeRoleFlags st' = Z.lor (activeRoleFlags st) (roleFlag rd) /\
  roleId2Flag st' = mset (roleId2Flag st) (roleId rd) (roleFlag rd).
Proof.
  unfold addRole. intros H.
  inv_bind H. apply require_Ok, negb_true_iff in Hx.
  inv_bind H. destruct x0.
  inv_bind H. inv_bind H. inv_bind H.
  match type of H with
  | context [fold_left ?f ?l ?a] =>
      pose proof (addRole_loop_sameFlags rd (Z.lor x1 (roleFlag rd)) l a) as Hloop;
      destruct (fold_left f l a) as [st1 fp]
  end.
  inv_bind H. apply shiftRightRoleIdx_sameFlags in Hx4.
  injection H as <- _.
  match goal with
  | |- context [fold_left ?f (ruleHashes rd) ?s] =>
      pose proof (ruleHashes_loop_sameFlags (roleFlag rd) (ruleHashes rd) s) as Hrules
  end.
  destruct Hrules as (Hr1 & Hr2 & Hr3). simpl in Hr1, Hr2, Hr3.
  destruct Hloop as (Hl1 & Hl2 & Hl3). simpl in Hl1, Hl2, Hl3.
  destruct Hx4 as (Hs1 & Hs2 & Hs3).
  split_and!; [done | done | ..]; simpl.
  - by rewrite Hr1, Hs1, Hl1.
  - by rewrite Hr2, Hs2, Hl2.
  - by rewrite Hr3, Hs3, Hl3.
Qed.

Lemma removeRole_Ok (st st' : State) (ap : SignedApproval) (rid : Z) (ev : Event) :
  removeRole ecrecover st ap rid = Ok (st', ev) ->
  mget (roleId2Flag st) rid <> 0 /\
  freeRoleFlags st' = freeRoleFlags st /\
  activeRoleFlags st' = Z.lxor (activeRoleFlags st) (mget (roleId2Flag st) rid) /\
  roleId2Flag st' = mdelete (roleId2Flag st) rid.
Proof.
  unfold removeRole. intros H.
  inv_bind H. inv_bind H. apply require_Ok, negb_true_iff, Z.eqb_neq in Hx0.
  inv_bind H. inv_bind H. destruct x2 as [st1 ridx].
  apply removeRole_loop_sameFlags in Hx2. simpl in Hx2.
  inv_bind H. apply shiftLeftRoleIdx_sameFlags in Hx3.
  injection H as <- _.
  destruct Hx2 as (Hl1 & Hl2 & Hl3). destruct Hx3 as (Hs1 & Hs2 & Hs3).
  split_and!; [done | ..]; simpl.
  - by rewrite Hs1, Hl1.
  - by rewrite Hs2, Hl2.
  - by rewrite Hs3, Hl3.
Qed.

Lemma grantRole_Ok (blk : Block) (st st' : State) (ap : SignedApproval)
    (nominee rid : Z) (ev : Event) :
  grantRole ecrecover blk st ap nominee rid = Ok (st', ev) -> sameFlags st st'.
Proof.
  unfold grantRole. intros H. inv_bind H. inv_bind H. inv_bind H.
  injection H as <- _.
  destruct (Z.land _ _ =? 0) in Hx1.
  - inv_bind Hx1. injection Hx1 as <-. by unfold sameFlags.
  - injection Hx1 as <-. apply sameFlags_refl.
Qed.

Lemma revokeRole_Ok (blk : Block) (st st' : State) (ap : SignedApproval)
    (nominee rid : Z) (ev : Event) :
  revokeRole ecrecover blk st ap nominee rid = Ok (st', ev) -> sameFlags st st'.
Proof.
  unfold revokeRole. intros H. inv_bind H. inv_bind H. inv_bind H.
  injection H as <- _.
  destruct (Z.land _ _ =? _) in Hx1.
  - inv_bind Hx1. injection Hx1 as <-. by unfold sameFlags.
  - injection Hx1 as <-. apply sameFlags_refl.
Qed.

End Operations.

Lemma requireValidRoleDef_Ok (st : State) (rd : RoleDef) :
  _requireValidRoleDef st rd = Ok tt ->
  exists c, 0 <= c /\ roleFlag rd = 2 ^ c /\ Z.testbit (freeRoleFlags st) c = true.
Proof.
  unfold _requireValidRoleDef. intros H.
  apply bind_Ok in H as (f1 & Hsub & H). unfold checked_sub in Hsub.
  destruct (Z.leb_spec 1 (roleFlag rd)) as [Hpos|]; [|discriminate].
  injection Hsub as <-.
  apply bind_Ok in H as (? & Hpure & H).
  apply require_Ok, Z.eqb_eq, pow2_of_land_pred in Hpure; [|done].
  apply bind_Ok in H as (? & Hfree & H).
  apply require_Ok, negb_true_iff in Hfree.
  exists (Z.log2 (roleFlag rd)). pose proof (Z.log2_nonneg (roleFlag rd)).
  split_and!; [done | done |].
  rewrite Hpure, land_pow2_eq0 in Hfree by done. by apply negb_false_iff in Hfree.
Qed.

Lemma land_eq0_bits (a b : Z) :
  Z.land a b = 0 <-> forall n, 0 <= n -> Z.testbit a n = true -> Z.testbit b n = false.
Proof.
  split.
  - intros H0 n Hn Ha.
    assert (Hb : Z.testbit (Z.land a b) n = false) by (by rewrite H0, Z.bits_0).
    rewrite Z.land_spec, Ha in Hb. done.
  - intros Hbits. apply Z.bits_inj'. intros n Hn.
    rewrite Z.land_spec, Z.bits_0.
    destruct (Z.testbit a n) eqn:Ha; [|done]. by rewrite Hbits.
Qed.

Lemma clear_bit_subset (free c n : Z) :
  0 <= c -> Z.testbit free c = true ->
  Z.testbit (Z.lxor free (2 ^ c)) n = true -> Z.testbit free n = true /\ n <> c.
Proof.
  intros Hc Hb. rewrite testbit_clear by done. case_decide; [done|]. done.
Qed.

Lemma mget_map_Forall (P : Z -> Prop) (m : gmap Z Z) (k : Z) :
  map_Forall (fun _ f => P f) m -> mget m k <> 0 -> P (mget m k).
Proof.
  intros Hall. unfold mget.
  destruct (m !! k) as [f|] eqn:Hk; simpl; [|done].
  intros _. by eapply Hall.
Qed.

Lemma land_pow2_pred (b : Z) : 0 <= b -> Z.land (2 ^ b) (2 ^ b - 1) = 0.
Proof.
  intros Hb. replace (2 ^ b - 1) with (Z.ones b) by (rewrite Z.ones_equiv; lia).
  apply Z.bits_inj'. intros n Hn.
  rewrite Z.land_spec, Z.bits_0, testbit_pow2 by done.
  case_bool_decide as Hbn; [|done]. subst n.
  by rewrite Z.ones_spec_high by lia.
Qed.

Section Flags.

Variable ecrecover : Z -> Z -> Z -> Z -> Z.

Lemma call_flags (c : Call) (st st' : State) (ev : Event) :
  flagsDisjoint st ->
  call ecrecover c st = Ok (st', ev) ->
  flagsDisjoint st' /\
  (forall n, Z.testbit (freeRoleFlags st') n = true ->
             Z.testbit (freeRoleFlags st) n = true).
Proof.
  intros [Hact Hreg] Hcall. destruct c as [blk ap nom rid|blk ap nom rid|ap rd|ap rid]; simpl in Hcall.
  - apply grantRole_Ok in Hcall as (Hf & Ha & Hr).
    unfold flagsDisjoint. rewrite Hf, Ha, Hr. done.
  - apply revokeRole_Ok in Hcall as (Hf & Ha & Hr).
    unfold flagsDisjoint. rewrite Hf, Ha, Hr. done.
  - apply addRole_Ok in Hcall as (_ & Hvalid & Hf & Ha & Hr).
    apply requireValidRoleDef_Ok in Hvalid as (c & Hc & Hflag & Hfree).
    rewrite Hflag in Hf, Ha, Hr.
    assert (Hsub : forall n, Z.testbit (freeRoleFlags st') n = true ->
                             Z.testbit (freeRoleFlags st) n = true /\ n <> c).
    { intros n. rewrite Hf. by apply clear_bit_subset. }
    split; [|intros n Hn; by apply Hsub].
    split.
    + rewrite Ha. apply land_eq0_bits. intros n Hn Hb.
      destruct (Z.testbit (freeRoleFlags st') n) eqn:Hfn; [exfalso|done].
      apply Hsub in Hfn as [Hfn Hne].
      rewrite Z.lor_spec, testbit_pow2, (bool_decide_eq_false_2 (c = n)) in Hb by done.
      rewrite orb_false_r in Hb.
      rewrite land_eq0_bits in Hact. rewrite (Hact n Hn Hb) in Hfn. done.
    + rewrite Hr. unfold mset. apply map_Forall_insert_2.
      * apply land_eq0_bits. intros n Hn Hb.
        destruct (Z.testbit (freeRoleFlags st') n) eqn:Hfn; [exfalso|done].
        apply Hsub in Hfn as [_ Hne].
        rewrite testbit_pow2 in Hb by done. apply bool_decide_eq_true in Hb. done.
      * intros k f Hk. specialize (Hreg k f Hk). simpl in Hreg |- *.
        apply land_eq0_bits. intros n Hn Hb.
        destruct (Z.testbit (freeRoleFlags st') n) eqn:Hfn; [exfalso|done].
        apply Hsub in Hfn as [Hfn _].
        rewrite land_eq0_bits in Hreg. rewrite (Hreg n Hn Hb) in Hfn. done.
  - apply removeRole_Ok in Hcall as (Hdel & Hf & Ha & Hr).
    split; [|intros n; by rewrite Hf].
    split.
    + rewrite Ha, Hf. apply land_eq0_bits. intros n Hn Hb.
      rewrite Z.lxor_spec in Hb.
      pose proof (mget_map_Forall _ _ rid Hreg Hdel) as Hd. simpl in Hd.
      rewrite land_eq0_bits in Hact, Hd.
      destruct (Z.testbit (activeRoleFlags st) n) eqn:Hbn; [by apply Hact|].
      destruct (Z.testbit (mget (roleId2Flag st) rid) n) eqn:Hdn; [by apply Hd|].
      done.
    + rewrite Hr, Hf. unfold mdelete. by apply map_Forall_delete.
Qed.

Lemma transact_flags (c : Call) (st : State) :
  flagsDisjoint st ->
  flagsDisjoint (transact ecrecover st c) /\
  (forall n, Z.testbit (freeRoleFlags (transact ecrecover st c)) n = true ->
             Z.testbit (freeRoleFlags st) n = true).
Proof.
  intros Hinv. unfold transact.
  destruct (call ecrecover c st) as [[st' ev]| | |] eqn:Hcall; try done.
  by eapply call_flags.
Qed.

Lemma run_flags (cs : list Call) :
  forall st,
  flagsDisjoint st ->
  flagsDisjoint (run ecrecover cs st) /\
  (forall n, Z.testbit (freeRoleFlags (run ecrecover cs st)) n = true ->
             Z.testbit (freeRoleFlags st) n = true).
Proof.
  induction cs as [|c cs IH]; intros st Hinv; [done|].
  unfold run. simpl. fold (run ecrecover cs (transact ecrecover st c)).
  destruct (transact_flags c st Hinv) as [Hinv' Hsub].
  destruct (IH _ Hinv') as [Hinv'' Hsub'].
  split; [done|]. intros n Hn. by apply Hsub, Hsub'.
Qed.

Lemma run_app (cs1 cs2 : list Call) (st : State) :
  run ecrecover (cs1 ++ cs2) st = run ecrecover cs2 (run ecrecover cs1 st).
Proof. unfold run. apply fold_left_app. Qed.

Lemma requireValidRoleDef_taken (st : State) (rd : RoleDef) (b : Z) :
  0 <= b -> roleFlag rd = 2 ^ b -> Z.testbit (freeRoleFlags st) b = false ->
  _requireValidRoleDef st rd = Revert ERR_ROLE_FLAG_TAKEN.
Proof.
  intros Hb Hflag Hfree. unfold _requireValidRoleDef. rewrite Hflag.
  assert (Hpos : 0 < 2 ^ b) by (by apply Z.pow_pos_nonneg).
  unfold checked_sub. replace (1 <=? 2 ^ b) with true by (symmetry; apply Z.leb_le; lia).
  cbn [bind].
  rewrite land_pow2_pred, Z.eqb_refl by done.
  cbn [require bind]. rewrite land_pow2_eq0, Hfree by done. done.
Qed.

Lemma requireValidRoleDef_free (st : State) (rd : RoleDef) (c : Z) :
  0 <= c -> roleFlag rd = 2 ^ c -> Z.testbit (freeRoleFlags st) c = true ->
  _requireValidRoleDef st rd <> Revert ERR_MALFORMED_ROLE_FLAG /\
  _requireValidRoleDef st rd <> Revert ERR_ROLE_FLAG_TAKEN /\
  (forall code, _requireValidRoleDef st rd <> Panic code).
Proof.
  intros Hc Hflag Hfree. unfold _requireValidRoleDef. rewrite Hflag.
  assert (Hpos : 0 < 2 ^ c) by (by apply Z.pow_pos_nonneg).
  unfold checked_sub. replace (1 <=? 2 ^ c) with true by (symmetry; apply Z.leb_le; lia).
  cbn [bind].
  rewrite land_pow2_pred, Z.eqb_refl by done.
  cbn [require bind]. rewrite land_pow2_eq0, Hfree by done. cbn [negb require bind].
  repeat match goal with
         | |- context [require ?c _] => destruct c; cbn [require bind]
         end;
    unfold ERR_MALFORMED_ROLE_FLAG, ERR_ROLE_FLAG_TAKEN, ERR_MALFORMED_ROLE_ID,
      ERR_ROLE_ID_TAKEN, ERR_SENIORS_MISSING, ERR_JUNIORS_MISSING, ERR_TOO_MANY_RULES;
    (split_and!; [discriminate .. | intros code; discriminate]).
Qed.

(** C5 (amended): along every sequence of transactions from a state in
    which no active and no registered flag is free, a flag bit that was
    active at some point is not in [freeRoleFlags] at any later point;
    [removeRole] leaves [freeRoleFlags] as it is; an [addRole] with that flag
    never succeeds, its role definition check fails with "Role flag already
    taken", and so does the call unless the approval asks for a self-sign,
    which the guard before the check refuses with its own reason; a role
    definition whose flag is a still-free bit passes the checks on the
    flag. *)
Theorem flag_never_reused (st0 : State) (before after : list Call) (b : Z) :
  flagsDisjoint st0 ->
  0 <= b < 256 ->
  Z.testbit (activeRoleFlags (run ecrecover before st0)) b = true ->
  let st := run ecrecover (before ++ after) st0 in
  Z.testbit (freeRoleFlags st) b = false /\
  (forall ap rid st' ev,
     removeRole ecrecover st ap rid = Ok (st', ev) ->
     freeRoleFlags st' = freeRoleFlags st) /\
  (forall ap rd,
     roleFlag rd = 2 ^ b ->
     _requireValidRoleDef st rd = Revert ERR_ROLE_FLAG_TAKEN /\
     addRole ecrecover st ap rd
     = Revert (if selfSignRequired ap then ERR_SELF_SIGN_NOT_ALLOWED
               else ERR_ROLE_FLAG_TAKEN) /\
     (forall st' ev, addRole ecrecover st ap rd <> Ok (st', ev))) /\
  (forall rd c,
     0 <= c < 256 -> roleFlag rd = 2 ^ c ->
     Z.testbit (freeRoleFlags st) c = true ->
     _requireValidRoleDef st rd <> Revert ERR_MALFORMED_ROLE_FLAG /\
     _requireValidRoleDef st rd <> Revert ERR_ROLE_FLAG_TAKEN).
Proof.
  intros Hinv Hb Hact st.
  destruct (run_flags before st0 Hinv) as [[Hdisj Hreg] _].
  assert (Hmid : Z.testbit (freeRoleFlags (run ecrecover before st0)) b = false).
  { rewrite land_eq0_bits in Hdisj. apply Hdisj; [lia | done]. }
  assert (Hfree : Z.testbit (freeRoleFlags st) b = false).
  { subst st. rewrite run_app.
    destruct (run_flags after (run ecrecover before st0)) as [_ Hsub]; [by split|].
    apply not_true_is_false. intros Hfb. apply Hsub in Hfb. congruence. }
  split_and!.
  - done.
  - intros ap rid st' ev Hrem. by apply removeRole_Ok in Hrem as (_ & ? & _).
  - intros ap rd Hflag.
    assert (Htaken : _requireValidRoleDef st rd = Revert ERR_ROLE_FLAG_TAKEN).
    { apply (requireValidRoleDef_taken _ _ b); [lia | done | done]. }
    split_and!; [done | |].
    + unfold addRole. rewrite Htaken. by destruct (selfSignRequired ap).
    + intros st' ev Hadd. apply addRole_Ok in Hadd as (_ & Hok & _). congruence.
  - intros rd c Hc Hflag Hfc.
    destruct (requireValidRoleDef_free st rd c) as (? & ? & _); [lia | done | done | done].
Qed.

End Flags.

Lemma flag_never_reused_witness :
  Z.testbit
    (freeRoleFlags
       (run Demo.ecrecover
          ([CallAddRole Demo.byAlice Demo.K]
             ++ [CallRemoveRole Demo.byAlice (roleId Demo.K)])
          Demo.deployed)) 1
  = false.
Proof.
  assert (Hinv : flagsDisjoint Demo.deployed).
  { split; [reflexivity|]. apply map_Forall_singleton. reflexivity. }
  assert (Hb : 0 <= 1 < 256) by lia.
  assert (Hact : Z.testbit
                   (activeRoleFlags
                      (run Demo.ecrecover [CallAddRole Demo.byAlice Demo.K] Demo.deployed))
                   1 = true) by (vm_compute; reflexivity).
  exact (proj1 (flag_never_reused Demo.ecrecover Demo.deployed
                  [CallAddRole Demo.byAlice Demo.K]
                  [CallRemoveRole Demo.byAlice (roleId Demo.K)] 1 Hinv Hb Hact)).
Defined.

(** C5, as stated, fails on the deployed chart after [K] (flag 2) was added
    and removed: the flag was active, is neither active nor free any more,
    and the role definition check turns it down as taken; but [addRole] runs
    its self-sign guard before that check, so with an approval that asks
    for a self-sign the call reverts with the reason of the guard, not with
    "Role flag already taken". *)
Lemma addRole_taken_flag_self_sign_reason :
  let grown := run Demo.ecrecover [CallAddRole Demo.byAlice Demo.K] Demo.deployed in
  let st :=
    run Demo.ecrecover
      [CallAddRole Demo.byAlice Demo.K; CallRemoveRole Demo.byAlice (roleId Demo.K)]
      Demo.deployed in
  let selfSigned :=
    {| sig := sig Demo.byAlice; atoms := atoms Demo.byAlice;
       assignment := assignment Demo.byAlice; selfSignRequired := true;
       baseBlockHash := baseBlockHash Demo.byAlice |} in
  roleFlag Demo.K = 2 ^ 1 /\
  Z.testbit (activeRoleFlags grown) 1 = true /\
  Z.testbit (activeRoleFlags st) 1 = false /\
  Z.testbit (freeRoleFlags st) 1 = false /\
  _requireValidRoleDef st Demo.K = Revert ERR_ROLE_FLAG_TAKEN /\
  addRole Demo.ecrecover st Demo.byAlice Demo.K = Revert ERR_ROLE_FLAG_TAKEN /\
  addRole Demo.ecrecover st selfSigned Demo.K = Revert ERR_SELF_SIGN_NOT_ALLOWED /\
  ERR_SELF_SIGN_NOT_ALLOWED <> ERR_ROLE_FLAG_TAKEN.
Proof. vm_compute. split_and!; [reflexivity .. | discriminate]. Qed.

(** ** The engine on the deployed chart *)

(** C1: [addRole] and [removeRole] run neither the base-block check nor the
    bound on the number of signers. On a chain where the base block of the
    approval is not among the last three blocks, [grantRole] fails with the
    stale-signature reason, and with 101 signatures it fails with the
    too-many-signers reason; [addRole] and [removeRole] succeed on the same
    approvals. *)
Theorem admin_calls_skip_base_block_and_size_checks :
  let stale := Demo.approvalOf [Demo.alice] [0] Demo.staleHash in
  let crowded := Demo.approvalOf (seqZ Demo.alice 101) [0] Demo.freshHash in
  _isValidBaseBlock Demo.chain (baseBlockHash stale) = Ok false /\
  len (sig crowded) = MAX_NUM_SIGNERS + 1 /\
  grantRole Demo.ecrecover Demo.chain Demo.deployed stale Demo.carol Demo.ROOT
  = Revert ERR_STALE_BASE_BLOCK /\
  grantRole Demo.ecrecover Demo.chain Demo.deployed crowded Demo.carol Demo.ROOT
  = Revert ERR_TOO_MANY_SIGNERS /\
  succeeds (addRole Demo.ecrecover Demo.deployed stale Demo.K)
    (fun '(st, _) => roleIndex st = [1; 2]) /\
  succeeds (removeRole Demo.ecrecover Demo.deployed stale Demo.ROOT)
    (fun '(st, _) => roleIndex st = []) /\
  succeeds (addRole Demo.ecrecover Demo.deployed crowded Demo.K)
    (fun '(st, _) => roleIndex st = [1; 2]) /\
  succeeds (removeRole Demo.ecrecover Demo.deployed crowded Demo.ROOT)
    (fun '(st, _) => roleIndex st = []).
Proof. vm_compute. split_and!; reflexivity. Qed.

(** C2: [addRole] inserts the new role at the index of its first parent and
    does not look at where its juniors are listed. With [P] listed before
    the unrelated [J], adding [R] under [P] and over [J] puts [R] before
    [P], and so before its junior [J]: the array was reverse-topological
    before the call and is not after it. *)
Theorem addRole_breaks_reverse_topological_order :
  let pre :=
    run Demo.ecrecover
      [CallAddRole Demo.byAlice Demo.K; CallAddRole Demo.byAlice Demo.P;
       CallAddRole Demo.byAlice Demo.J] Demo.deployed in
  roleIndex pre = [1; 2; 4; 8] /\
  reverseTopological pre = true /\
  succeeds (addRole Demo.ecrecover pre Demo.byAlice Demo.R)
    (fun '(post, _) =>
       roleIndex post = [1; 2; 16; 4; 8] /\
       isJuniorOf post 8 16 = true /\
       reverseTopological post = false).
Proof. vm_compute. split_and!; reflexivity. Qed.

(** C3: the senior and junior checks of [_requireValidRoleDef] compare with
    the complement of [freeRoleFlags], and the flag of a removed role is
    neither free nor active. After [K] is added and removed, a role
    definition with the flag of [K] as senior or as junior passes the checks
    and [addRole] succeeds with it; a flag that is still free is rejected. *)
Theorem addRole_accepts_removed_role_as_senior_or_junior :
  let pre :=
    run Demo.ecrecover
      [CallAddRole Demo.byAlice Demo.K; CallRemoveRole Demo.byAlice (roleId Demo.K)]
      Demo.deployed in
  roleIndex pre = [1] /\
  Z.land (activeRoleFlags pre) (roleFlag Demo.K) = 0 /\
  Z.land (freeRoleFlags pre) (roleFlag Demo.K) = 0 /\
  mget (roleId2Flag pre) (roleId Demo.K) = 0 /\
  _requireValidRoleDef pre (Demo.Y 2 0) = Ok tt /\
  _requireValidRoleDef pre (Demo.Y 0 2) = Ok tt /\
  _requireValidRoleDef pre (Demo.Y 8 0) = Revert ERR_SENIORS_MISSING /\
  _requireValidRoleDef pre (Demo.Y 0 8) = Revert ERR_JUNIORS_MISSING /\
  succeeds (addRole Demo.ecrecover pre Demo.byAlice (Demo.Y 2 0))
    (fun '(post, ev) => ev = RoleAdded Demo.Y_ID 2 0 /\ roleIndex post = [1; 4]) /\
  succeeds (addRole Demo.ecrecover pre Demo.byAlice (Demo.Y 0 2))
    (fun '(post, ev) =>
       ev = RoleAdded Demo.Y_ID 0 2 /\ mget (roleFlag2JuniorMask post) 4 = 2).
Proof. vm_compute. split_and!; reflexivity. Qed.

(** C6: [removeRole] rebuilds the structure mask of an ancestor from the
    masks of its direct juniors in the order of the role array. With [R]
    listed before its junior [J], removing [K], a junior of [J], rebuilds
    the mask of [R] from the mask of [J] as it was before [J] lost [K]:
    the masks were consistent before the call and are not after it. *)
Theorem removeRole_breaks_mask_consistency :
  let pre :=
    run Demo.ecrecover
      [CallAddRole Demo.byAlice Demo.K; CallAddRole Demo.byAlice Demo.P;
       CallAddRole Demo.byAlice Demo.J; CallAddRole Demo.byAlice Demo.R]
      Demo.deployed in
  roleIndex pre = [1; 2; 16; 4; 8] /\
  maskConsistent pre = true /\
  succeeds (removeRole Demo.ecrecover pre Demo.byAlice (roleId Demo.K))
    (fun '(post, _) =>
       roleIndex post = [1; 16; 4; 8] /\
       mget (roleFlag2JuniorMask post) 16 = 8 /\
       mget (roleFlag2Mask post) 8 = 8 /\
       mget (roleFlag2Mask post) 16 = 26 /\
       maskConsistent post = false).
Proof. vm_compute. split_and!; reflexivity. Qed.
